(** * PG_GAN utilities: a shallow embedding of [utils.py]

    The file models the helper functions of [PG_GAN_417/utils.py]
    ([Params.update], [set_logger], [row_csv2dict], [save_checkpoint],
    [load_checkpoint], [plot_loss_history]) as programs of a small
    state-and-exception monad over an explicit world: a POSIX-like file
    system, a store of mutable torch objects, the standard output, the root
    logger and pyplot's current figure. *)

From Stdlib Require Import ZArith Ascii String.
From stdpp Require Import gmap strings list fin_maps.

Open Scope string_scope.
Set Warnings "-register-all,-clear-no-such-hyp".

(** ** Paths

    Paths are the strings the Python code manipulates.  The file system
    resolves them lexically into lists of components, root first, the way
    [os.path.abspath] does (the modelled file system has no symbolic
    links). *)

Module Path.

Definition sep : ascii := "/"%char.

Definition startswith_sep (s : string) : bool :=
  match s with
  | String c _ => Ascii.eqb c sep
  | EmptyString => false
  end.

Fixpoint endswith_sep (s : string) : bool :=
  match s with
  | EmptyString => false
  | String c EmptyString => Ascii.eqb c sep
  | String _ r => endswith_sep r
  end.

(** [posixpath.join] for one appended part:
<<
    if b.startswith(sep): path = b
    elif not path or path.endswith(sep): path += b
    else: path += sep + b
>> *)
Definition join (a b : string) : string :=
  if startswith_sep b then b
  else if (String.eqb a "" || endswith_sep a)%bool then a +:+ b
  else a +:+ String sep b.

(** [s.split('/')]. *)
Fixpoint split (s : string) : list string :=
  match s with
  | EmptyString => [EmptyString]
  | String c r =>
      if Ascii.eqb c sep then EmptyString :: split r
      else match split r with
           | h :: t => String c h :: t
           | [] => [String c EmptyString]
           end
  end.

(** One step of lexical normalisation: empty components and [.] are
    dropped, [..] goes up. *)
Definition walk (acc : list string) (c : string) : list string :=
  if String.eqb c "" then acc
  else if String.eqb c "." then acc
  else if String.eqb c ".." then removelast acc
  else acc ++ [c].

(** [os.path.abspath]: the components of [p], from the root. *)
Definition abspath (cwd : list string) (p : string) : list string :=
  fold_left walk (split p) (if startswith_sep p then [] else cwd).

(** A plain file name: no separator, and none of the special
    components. *)
Fixpoint no_sep (s : string) : bool :=
  match s with
  | EmptyString => true
  | String c r => negb (Ascii.eqb c sep) && no_sep r
  end.

Definition plain (n : string) : bool :=
  no_sep n && negb (String.eqb n "") && negb (String.eqb n ".")
  && negb (String.eqb n "..").

End Path.

(** ** Python values

    A float is carried as its IEEE-754 bit pattern: the code under study
    stores, returns and hands over losses; the one computation on them, the
    rolling mean of the plot, is pandas' and is kept symbolic. *)

Definition float64 := Z.

Record tensor := Tensor { shape : list nat; data : list float64 }.

(** The values a checkpoint dictionary holds.  A [state_dict] is torch's
    ordered mapping from parameter names to tensors. *)
Inductive pyobj :=
| PyNone
| PyInt (n : Z)
| PyFloat (bits : float64)
| PyList (xs : list pyobj)
| PyStateDict (sd : list (string * tensor)).

(** What [json.load] produces. *)
Inductive json :=
| JNull
| JBool (b : bool)
| JNum (n : Z)
| JFloat (bits : float64)
| JStr (s : string)
| JArr (xs : list json)
| JObj (members : list (string * json)).

(** Python exceptions raised by the modelled code and by the library calls
    it makes. *)
Inductive exn :=
| FileNotFoundError
| FileExistsError
| NotADirectoryError
| IsADirectoryError
| KeyError (key : string)
| IndexError
| TypeError (msg : string)
| ValueError (msg : string)
| UnpicklingError
| JSONDecodeError
| CsvError.

Inductive result (A : Type) :=
| Ok (a : A)
| Raise (e : exn).
Arguments Ok {A} a.
Arguments Raise {A} e.

(** ** Figures, log handlers, files *)

Inductive plotline :=
| RollingMean (window : nat) (column : string) (ys : list float64)
| Line (ys : list float64).

Record figure := Figure {
  lines : list plotline;
  ylabel : string;
  xlabel : string }.

Definition blank_figure : figure := Figure [] "" "".

Inductive sink :=
| FileSink (baseFilename : list string)
| ConsoleSink.

Record handler := Handler { target : sink; formatter : option string }.

Record logger := Logger { level : Z; handlers : list handler }.

Definition WARNING : Z := 30.
Definition INFO : Z := 20.

(** A file is represented by what its bytes decode to; reading it through
    another decoder raises that decoder's error. *)
Inductive content :=
| Empty
| Pickle (state : gmap string pyobj)
| JsonDoc (members : list (string * json))
| CsvText (rows : list (list string))
| Png (fig : figure)
| Mat (mdict : list (string * list float64)).

Inductive node :=
| Dir
| File (c : content).

(** What [print] was called with: a string, or a list of floats shown by
    its [repr]. *)
Inductive printed :=
| Text (s : string)
| Floats (ys : list float64).

(** ** The world *)

Definition loc := positive.

Record world := World {
  cwd : list string;
  nodes : gmap (list string) node;
  heap : gmap loc pyobj;
  stdout : list printed;
  root : logger;
  gcf : figure }.

Definition with_nodes (f : gmap (list string) node → gmap (list string) node)
    (w : world) : world :=
  World (cwd w) (f (nodes w)) (heap w) (stdout w) (root w) (gcf w).

Definition with_heap (f : gmap loc pyobj → gmap loc pyobj) (w : world) : world :=
  World (cwd w) (nodes w) (f (heap w)) (stdout w) (root w) (gcf w).

Definition with_stdout (f : list printed → list printed) (w : world) : world :=
  World (cwd w) (nodes w) (heap w) (f (stdout w)) (root w) (gcf w).

Definition with_root (f : logger → logger) (w : world) : world :=
  World (cwd w) (nodes w) (heap w) (stdout w) (f (root w)) (gcf w).

Definition with_gcf (f : figure → figure) (w : world) : world :=
  World (cwd w) (nodes w) (heap w) (stdout w) (root w) (f (gcf w)).

(** ** The monad: a Python statement either returns or raises, and in both
    cases leaves the world it has reached. *)

Definition M (A : Type) : Type := world → result A * world.

Definition ret {A} (a : A) : M A := λ w, (Ok a, w).

Definition raise {A} (e : exn) : M A := λ w, (Raise e, w).

Definition bind {A B} (m : M A) (k : A → M B) : M B :=
  λ w, match m w with
       | (Ok a, w') => k a w'
       | (Raise e, w') => (Raise e, w')
       end.

Definition gets {A} (f : world → A) : M A := λ w, (Ok (f w), w).

Definition modify (f : world → world) : M unit := λ w, (Ok tt, f w).

#[global] Instance M_ret : MRet M := @ret.
#[global] Instance M_bind : MBind M := λ A B k m, bind m k.

(** ** File system operations *)

Definition node_at (w : world) (k : list string) : option node :=
  match k with
  | [] => Some Dir
  | _ => nodes w !! k
  end.

Definition resolve (w : world) (p : string) : list string :=
  Path.abspath (cwd w) p.

(** The error of a lookup that has to pass through a path that does not
    exist, listed here leaf first.  The kernel walks down from the root and
    stops below the deepest ancestor that exists: with [ENOTDIR] when that is
    a regular file, with [ENOENT] when it is a directory, in which the next
    name is missing. *)
Fixpoint lookup_error (w : world) (up : list string) : exn :=
  match up with
  | [] => FileNotFoundError
  | _ :: above =>
      match node_at w (rev above) with
      | Some Dir => FileNotFoundError
      | Some (File _) => NotADirectoryError
      | None => lookup_error w above
      end
  end.

(** Looking up the entry [k]: its parent has to be a directory.  Below a
    regular file the lookup fails with [ENOTDIR]; below a name that does not
    exist, with the error of the walk down to it. *)
Definition entry (w : world) (k : list string) : result (option node) :=
  match node_at w (removelast k) with
  | Some Dir => Ok (node_at w k)
  | Some (File _) => Raise NotADirectoryError
  | None => Raise (lookup_error w (rev (removelast k)))
  end.

Definition lookup_entry (k : list string) : M (option node) :=
  λ w, (entry w k, w).

(** [os.path.exists]: [False] where the lookup fails, it never raises. *)
Definition path_exists (w : world) (p : string) : bool :=
  if String.eqb p "" then false
  else match entry w (resolve w p) with
       | Ok (Some _) => true
       | _ => false
       end.

Definition os_path_exists (p : string) : M bool :=
  gets (λ w, path_exists w p).

Definition os_mkdir (p : string) : M unit :=
  if String.eqb p "" then raise FileNotFoundError
  else
    k ← gets (λ w, resolve w p);
    here ← lookup_entry k;
    match here with
    | Some _ => raise FileExistsError
    | None => modify (with_nodes <[k := Dir]>)
    end.

(** [open(p, 'w')] followed by writing [c] and closing. *)
Definition write_file (p : string) (c : content) : M unit :=
  if String.eqb p "" then raise FileNotFoundError
  else
    k ← gets (λ w, resolve w p);
    here ← lookup_entry k;
    match here with
    | Some Dir => raise IsADirectoryError
    | _ => modify (with_nodes <[k := File c]>)
    end.

(** [open(k, 'a')] on the absolute, normalised path [k]: an existing file
    is left as it is, and an empty file is created when there is none. *)
Definition open_append (k : list string) : M unit :=
  here ← lookup_entry k;
  match here with
  | Some Dir => raise IsADirectoryError
  | Some (File _) => mret tt
  | None => modify (with_nodes <[k := File Empty]>)
  end.

(** [open(p)] followed by reading everything. *)
Definition read_file (p : string) : M content :=
  if String.eqb p "" then raise FileNotFoundError
  else
    k ← gets (λ w, resolve w p);
    here ← lookup_entry k;
    match here with
    | Some Dir => raise IsADirectoryError
    | Some (File c) => mret c
    | None => raise FileNotFoundError
    end.

(** Unfolding the monad's operations. *)
Ltac unfold_M :=
  unfold mbind, M_bind, bind, mret, M_ret, ret, gets, modify, raise,
    lookup_entry in *.

Definition print (line : printed) : M unit :=
  modify (with_stdout (λ out, (out ++ [line])%list)).

Definition dict_getitem {V} (d : gmap string V) (key : string) : M V :=
  match d !! key with
  | Some v => mret v
  | None => raise (KeyError key)
  end.

Definition list_getitem {A} (l : list A) (i : nat) : M A :=
  match l !! i with
  | Some x => mret x
  | None => raise IndexError
  end.

(** [raise x] where [x] is a [str]: Python refuses the operand, and the
    exception that propagates is its own [TypeError]; the string is lost. *)
Definition raise_str {A} (_ : string) : M A :=
  raise (TypeError "exceptions must derive from BaseException").

(** [open(p, 'w')]: the file is created, or emptied, as it is opened; the
    result is the absolute path of the open file. *)
Definition open_write (p : string) : M (list string) :=
  if String.eqb p "" then raise FileNotFoundError
  else
    k ← gets (λ w, resolve w p);
    here ← lookup_entry k;
    match here with
    | Some Dir => raise IsADirectoryError
    | _ => modify (with_nodes <[k := File Empty]>);; mret k
    end.

(** Writing [c] through the open file [f] and closing it. *)
Definition write_open (f : list string) (c : content) : M unit :=
  modify (with_nodes <[f := File c]>).

(** ** [class Params] *)

Module Params.

(** [json.load(f)]: the members of the top-level object, a later
    duplicate of a name replacing an earlier one. *)
Definition object_pairs (members : list (string * json))
    (d : gmap string json) : gmap string json :=
  fold_left (λ d kv, <[kv.1 := kv.2]> d) members d.

Definition json_load (f : content) : M (gmap string json) :=
  match f with
  | JsonDoc members => mret (object_pairs members ∅)
  | _ => raise JSONDecodeError
  end.

(** [d.update(params)] on dictionaries. *)
Definition dict_update (d params : gmap string json) : gmap string json :=
  params ∪ d.

(** [update(self, json_path)]; [self] stands for [self.__dict__], and the
    result is [self.__dict__] after the call. *)
Definition update (self : gmap string json) (json_path : string)
    : M (gmap string json) :=
  f ← read_file json_path;
  params ← json_load f;
  mret (dict_update self params).

(** [__init__(self, json_path)], on the empty [__dict__] of a new
    instance. *)
Definition init (json_path : string) : M (gmap string json) :=
  update ∅ json_path.

(** [json.dump(d, f, indent=4)]: the object with the members of [d].  They
    are written in the iteration order of the dictionary, which the finite
    map does not record; reading the object back does not depend on it. *)
Definition json_dump (d : gmap string json) (f : list string) : M unit :=
  write_open f (JsonDoc (map_to_list d)).

(** [save(self, json_path)]. *)
Definition save (self : gmap string json) (json_path : string) : M unit :=
  f ← open_write json_path;
  json_dump self f.

End Params.

(** ** [set_logger] *)

Definition setLevel (l : Z) : M unit :=
  modify (with_root (λ lg, Logger l (handlers lg))).

Definition addHandler (h : handler) : M unit :=
  modify (with_root (λ lg, Logger (level lg) (handlers lg ++ [h])%list)).

(** [logging.FileHandler(log_path)] takes the absolute path of its
    argument and opens that for appending:
<<
    self.baseFilename = os.path.abspath(filename)
    ...
    open(self.baseFilename, self.mode)            # mode is 'a'
>>
    The empty path is thus the working directory. *)
Definition FileHandler (log_path : string) : M handler :=
  baseFilename ← gets (λ w, resolve w log_path);
  open_append baseFilename;;
  mret (Handler (FileSink baseFilename) None).

Definition StreamHandler : M handler :=
  mret (Handler ConsoleSink None).

Definition setFormatter (h : handler) (fmt : string) : handler :=
  Handler (target h) (Some fmt).

Definition set_logger (log_path : string) : M unit :=
  setLevel INFO;;
  hs ← gets (λ w, handlers (root w));
  match hs with
  | [] =>
      file_handler ← FileHandler log_path;
      addHandler
        (setFormatter file_handler "%(asctime)s:%(levelname)s: %(message)s");;
      stream_handler ← StreamHandler;
      addHandler (setFormatter stream_handler "%(message)s")
  | _ :: _ => mret tt
  end.

Definition is_file_handler (h : handler) : bool :=
  match target h with
  | FileSink _ => true
  | ConsoleSink => false
  end.

Definition is_console_handler (h : handler) : bool :=
  match target h with
  | FileSink _ => false
  | ConsoleSink => true
  end.

(** ** [row_csv2dict] *)

Definition csv_reader (f : content) : M (list (list string)) :=
  match f with
  | CsvText rows => mret rows
  | Empty => mret []
  | _ => raise CsvError
  end.

(** The [for row in reader] loop, [dict_club] being the dictionary built
    so far. *)
Fixpoint for_row (rows : list (list string))
    (dict_club : gmap (string * string) string)
    : M (gmap (string * string) string) :=
  match rows with
  | [] => mret dict_club
  | row :: rest =>
      v ← list_getitem row 2;
      a ← list_getitem row 0;
      b ← list_getitem row 1;
      for_row rest (<[(a, b) := v]> dict_club)
  end.

Definition row_csv2dict (csv_file : string)
    : M (gmap (string * string) string) :=
  f ← read_file csv_file;
  reader ← csv_reader f;
  for_row reader ∅.

(** ** Checkpoints *)

Definition torch_save (state : gmap string pyobj) (filepath : string) : M unit :=
  write_file filepath (Pickle state).

Definition torch_load (path : string) : M (gmap string pyobj) :=
  f ← read_file path;
  match f with
  | Pickle state => mret state
  | _ => raise UnpicklingError
  end.

(** [obj.load_state_dict(v)] replaces, in place, the state of the network
    or optimizer at [obj].  torch's own check of [v] against the
    architecture of the instance is outside [utils.py]: [v] is taken to fit
    the instance. *)
Definition load_state_dict (obj : loc) (v : pyobj) : M unit :=
  modify (with_heap <[obj := v]>).

Definition save_checkpoint (state : gmap string pyobj) (checkpoint : string)
    : M unit :=
  let filepath := Path.join checkpoint "model.pth.tar" in
  there ← os_path_exists checkpoint;
  (if negb there then
     print (Text ("Checkpoint Directory does not exist! Making directory "
                  +:+ checkpoint));;
     os_mkdir checkpoint
   else
     print (Text "Checkpoint Directory exists! "));;
  torch_save state filepath.

Definition loaded : Type :=
  pyobj * loc * loc * pyobj * pyobj * pyobj * pyobj.

Definition load_checkpoint (checkpoint : string) (model : loc * loc)
    (optimizer : option (loc * loc)) : M loaded :=
  there ← os_path_exists checkpoint;
  (if negb there then raise_str ("File doesn't exist " +:+ checkpoint)
   else mret tt);;
  checkpoint ← torch_load checkpoint;
  iters ← dict_getitem checkpoint "iters";
  let '(generator, discriminator) := model in
  gen_loss_history ← dict_getitem checkpoint "gen_loss_history";
  dis_loss_history ← dict_getitem checkpoint "dis_loss_history";
  dis_loss_real_history ← dict_getitem checkpoint "dis_loss_real_history";
  dis_loss_fake_history ← dict_getitem checkpoint "dis_loss_fake_history";
  gen_state_dict ← dict_getitem checkpoint "gen_state_dict";
  load_state_dict generator gen_state_dict;;
  dis_state_dict ← dict_getitem checkpoint "dis_state_dict";
  load_state_dict discriminator dis_state_dict;;
  match optimizer with
  | Some (optim_G, optim_D) =>
      optim_G_state_dict ← dict_getitem checkpoint "optim_G_state_dict";
      load_state_dict optim_G optim_G_state_dict;;
      optim_D_state_dict ← dict_getitem checkpoint "optim_D_state_dict";
      load_state_dict optim_D optim_D_state_dict
  | None => mret tt
  end;;
  mret (iters, generator, discriminator, gen_loss_history, dis_loss_history,
        dis_loss_real_history, dis_loss_fake_history).

(** ** [plot_loss_history] *)

(** [pd.DataFrame({...})] from a dictionary of lists: the columns must have
    one length. *)
Definition DataFrame (columns : list (string * list float64))
    : M (list (string * list float64)) :=
  match columns with
  | [] => mret columns
  | (_, ys) :: rest =>
      if forallb (λ c, length c.2 =? length ys)%nat rest then mret columns
      else raise (ValueError "All arrays must be of the same length")
  end.

(** [df.rolling(window).mean().plot()]: a new current figure with one line
    per column. *)
Definition rolling_mean_plot (window : nat)
    (df : list (string * list float64)) : M unit :=
  modify (with_gcf (λ _,
    Figure (map (λ c, RollingMean window c.1 c.2) df) "" "")).

Definition plt_figure : M unit := modify (with_gcf (λ _, blank_figure)).

Definition plt_plot (ys : list float64) : M unit :=
  modify (with_gcf (λ f, Figure (lines f ++ [Line ys])%list (ylabel f) (xlabel f))).

Definition plt_ylabel (s : string) : M unit :=
  modify (with_gcf (λ f, Figure (lines f) s (xlabel f))).

Definition plt_xlabel (s : string) : M unit :=
  modify (with_gcf (λ f, Figure (lines f) (ylabel f) s)).

Definition plt_savefig (fname : string) : M unit :=
  fig ← gets gcf;
  write_file fname (Png fig).

Definition io_savemat (file_name : string)
    (mdict : list (string * list float64)) : M unit :=
  write_file file_name (Mat mdict).

(** Truth value of a list. *)
Definition truthy {A} (l : list A) : bool :=
  match l with
  | [] => false
  | _ :: _ => true
  end.

Definition plot_loss_history (loss_history : list (list float64))
    (output_dir : string) : M unit :=
  if (length loss_history =? 2)%nat then
    match loss_history with
    | [gen_loss_history; dis_loss_history] =>
        if truthy gen_loss_history && truthy dis_loss_history then
          df ← DataFrame [("generator", gen_loss_history);
                          ("disciminator", dis_loss_history)];
          rolling_mean_plot 10 df;;
          plt_savefig (output_dir +:+ "/figures/history.png");;
          let history_path := Path.join output_dir "history.mat" in
          io_savemat history_path
            [("gen_loss_history", gen_loss_history);
             ("dis_loss_history", dis_loss_history)]
        else mret tt
    | _ => raise (ValueError "unpack")
    end
  else
    match loss_history with
    | [gen_loss_history; dis_loss_history; Eff_history] =>
        if truthy gen_loss_history && truthy dis_loss_history then
          df ← DataFrame [("generator", gen_loss_history);
                          ("disciminator", dis_loss_history)];
          rolling_mean_plot 10 df;;
          plt_savefig (output_dir +:+ "/figures/history.png");;
          plt_figure;;
          print (Floats Eff_history);;
          plt_plot Eff_history;;
          plt_ylabel "Avarage Efficiency";;
          plt_xlabel "iteration/200";;
          plt_savefig (output_dir +:+ "/figures/Eff_history.png");;
          let history_path := Path.join output_dir "history.mat" in
          io_savemat history_path
            [("gen_loss_history", gen_loss_history);
             ("dis_loss_history", dis_loss_history);
             ("Eff_history", Eff_history)]
        else mret tt
    | _ => raise (ValueError "unpack")
    end.

(** ** [save_dict_to_json] *)

Section builtin_float.

(** Python's rounding of an [int] to the nearest double, which is not this
    file's; it raises for an [int] beyond the range of doubles. *)
Variable float_of_int : Z → result float64.

(** The builtin [float] on the values of a dictionary. *)
Definition float (v : pyobj) : result float64 :=
  match v with
  | PyFloat bits => Ok bits
  | PyInt n => float_of_int n
  | PyNone =>
      Raise (TypeError
        "float() argument must be a string or a real number, not 'NoneType'")
  | PyList _ =>
      Raise (TypeError
        "float() argument must be a string or a real number, not 'list'")
  | PyStateDict _ =>
      Raise (TypeError
        "float() argument must be a string or a real number, not 'collections.OrderedDict'")
  end.

(** The comprehension [{k: float(v) for k, v in d.items()}], over the items
    in turn: it stops at the first value [float] refuses. *)
Fixpoint float_items (items : list (string * pyobj))
    : M (list (string * json)) :=
  match items with
  | [] => mret []
  | (k, v) :: rest =>
      match float v with
      | Ok x => d ← float_items rest; mret ((k, JFloat x) :: d)
      | Raise e => raise e
      end
  end.

Definition save_dict_to_json (d : gmap string pyobj) (json_path : string)
    : M unit :=
  f ← open_write json_path;
  d ← float_items (map_to_list d);
  write_open f (JsonDoc d).

End builtin_float.

(** ** The checkpoint record of the specification *)

(** Modelled from the spec: the training loop that assembles the dictionary
    handed to [save_checkpoint] is not part of the source.  The record has the
    fields the specification's data model lists, and [to_state] stores them
    under the keys [load_checkpoint] reads. *)
Record CheckpointRecord := {
  iteration_count : Z;
  generator_state : list (string * tensor);
  discriminator_state : list (string * tensor);
  generator_loss_history : list float64;
  discriminator_loss_history : list float64;
  optimizer_states : option (pyobj * pyobj) }.

Definition valid (S : CheckpointRecord) : Prop :=
  (0 ≤ iteration_count S)%Z
  ∧ length (generator_loss_history S) = length (discriminator_loss_history S).

Definition history (ys : list float64) : pyobj := PyList (map PyFloat ys).

Definition to_state (S : CheckpointRecord) : gmap string pyobj :=
  let base : gmap string pyobj :=
    <["iters" := PyInt (iteration_count S)]>
    (<["gen_state_dict" := PyStateDict (generator_state S)]>
    (<["dis_state_dict" := PyStateDict (discriminator_state S)]>
    (<["gen_loss_history" := history (generator_loss_history S)]>
    (<["dis_loss_history" := history (discriminator_loss_history S)]> ∅)))) in
  match optimizer_states S with
  | Some (optim_G, optim_D) =>
      <["optim_G_state_dict" := optim_G]>
        (<["optim_D_state_dict" := optim_D]> base)
  | None => base
  end.

(** The file at [p] is an artifact written by [torch.save], holding the
    dictionary [d]. *)
Definition holds_artifact (w : world) (p : string) (d : gmap string pyobj) : Prop :=
  p ≠ "" ∧ entry w (resolve w p) = Ok (Some (File (Pickle d))).

(** The row is not one for the key pair [(a, b)]. *)
Definition other_key (a b : string) (row : list string) : Prop :=
  ¬ (row !! 0 = Some a ∧ row !! 1 = Some b).

(** ** Sample worlds and states, used to exercise the theorems *)

Module Sample.

(** A process started in [/home/gan], whose root logger is untouched. *)
Definition w0 : world :=
  World ["home"; "gan"]
    (<[["home"] := Dir]> (<[["home"; "gan"] := Dir]> ∅))
    ∅ [] (Logger WARNING []) blank_figure.

Definition weights (x : Z) : pyobj :=
  PyStateDict [("fc.weight", Tensor [1; 2] [x; (x + 1)%Z])].

(** A state with the four loss histories and no optimizer state. *)
Definition state4 (it : Z) : gmap string pyobj :=
  <["iters" := PyInt it]>
  (<["gen_state_dict" := weights 10]>
  (<["dis_state_dict" := weights 20]>
  (<["gen_loss_history" := history [1; 2]%Z]>
  (<["dis_loss_history" := history [3; 4]%Z]>
  (<["dis_loss_real_history" := history [5; 6]%Z]>
  (<["dis_loss_fake_history" := history [7; 8]%Z]> ∅)))))).

(** The same with optimizer state. *)
Definition state6 (it : Z) : gmap string pyobj :=
  <["optim_G_state_dict" := weights 30]>
  (<["optim_D_state_dict" := weights 40]> (state4 it)).

(** A record of the specification: two histories, no optimizer. *)
Definition record2 : CheckpointRecord :=
  {| iteration_count := 3;
     generator_state := [("fc.weight", Tensor [1; 2] [10; 11]%Z)];
     discriminator_state := [("fc.weight", Tensor [1; 2] [20; 21]%Z)];
     generator_loss_history := [1; 2]%Z;
     discriminator_loss_history := [3; 4]%Z;
     optimizer_states := None |}.

(** Two networks and two optimizers in memory. *)
Definition G : loc := 1%positive.
Definition D : loc := 2%positive.
Definition OG : loc := 3%positive.
Definition OD : loc := 4%positive.

Definition with_objects (w : world) : world :=
  with_heap (λ _, <[G := weights 0]> (<[D := weights 1]>
                  (<[OG := weights 2]> (<[OD := weights 3]> ∅)))) w.

(** The result of running [m] from [w]. *)
Definition after {A} (m : M A) (w : world) : world := (m w).2.

(** A configuration file [params.json] in the working directory. *)
Definition config : list (string * json) :=
  [("learning_rate", JNum 1); ("batch_size", JNum 64);
   ("learning_rate", JNum 2)].

Definition with_config (w : world) : world :=
  with_nodes <[["home"; "gan"; "params.json"] := File (JsonDoc config)]> w.

Definition params0 : gmap string json :=
  <["learning_rate" := JNum 5]> (<["beta1" := JNum 9]> ∅).

(** A lookup table [table.csv] where one key pair comes twice. *)
Definition table : list (list string) :=
  [["a"; "b"; "first"]; ["c"; "d"; "other"]; ["a"; "b"; "second"]].

Definition with_table (w : world) : world :=
  with_nodes <[["home"; "gan"; "table.csv"] := File (CsvText table)]> w.

(** An output directory [out] with its [figures] subdirectory. *)
Definition with_out (w : world) : world :=
  with_nodes (λ m, <[["home"; "gan"; "out"; "figures"] := Dir]>
                     (<[["home"; "gan"; "out"] := Dir]> m)) w.

(** Metrics to be written by [save_dict_to_json]. *)
Definition metrics : gmap string pyobj :=
  <["loss" := PyFloat 4607182418800017408%Z]> (<["accuracy" := PyInt 1]> ∅).

Definition bad_metrics : gmap string pyobj :=
  <["loss" := PyFloat 4607182418800017408%Z]> (<["accuracy" := PyNone]> ∅).

(** The double of an integer, for the integers the samples use: below
    [2^53] every integer is a double. *)
Definition float_of_int (n : Z) : result float64 :=
  if (Z.abs n <? 2 ^ 53)%Z then
    if (n =? 0)%Z then Ok 0%Z
    else
      let e := Z.log2 (Z.abs n) in
      Ok ((if (n <? 0)%Z then 2 ^ 63 else 0)
          + (e + 1023) * 2 ^ 52
          + (Z.abs n * 2 ^ (52 - e) - 2 ^ 52))%Z
  else Raise (ValueError "integer outside the samples").

(** A CSV table whose rows have more than three fields, and one with a
    short row. *)
Definition wide_table : list (list string) :=
  [["a"; "b"; "first"; "x"]; ["c"; "d"; "other"]; ["a"; "b"; "second"; "y"; "z"]].

Definition with_wide_table (w : world) : world :=
  with_nodes <[["home"; "gan"; "wide.csv"] := File (CsvText wide_table)]> w.

Definition short_table : list (list string) :=
  [["a"; "b"; "first"]; ["c"; "d"]; ["e"; "f"; "g"]].

Definition with_short_table (w : world) : world :=
  with_nodes <[["home"; "gan"; "short.csv"] := File (CsvText short_table)]> w.

(** A second configuration file. *)
Definition config2 : list (string * json) :=
  [("batch_size", JNum 32); ("epochs", JNum 10)].

Definition with_config2 (w : world) : world :=
  with_nodes <[["home"; "gan"; "other.json"] := File (JsonDoc config2)]> w.

(** A root logger that already has a console handler, as
    [logging.basicConfig] leaves it. *)
Definition with_basic_config (w : world) : world :=
  with_root (λ lg, Logger (level lg) [Handler ConsoleSink None]) w.

(** The world after [state] was saved into [ckpt]. *)
Definition saved (state : gmap string pyobj) : world :=
  after (save_checkpoint state "ckpt") (with_objects w0).

End Sample.

(** * Properties *)

(** ** Paths *)

Section path_facts.
Import Path.

Lemma append_nil s : "" +:+ s = s.
Proof. reflexivity. Qed.

Lemma append_cons c a s : String c a +:+ s = String c (a +:+ s).
Proof. reflexivity. Qed.

Lemma split_nonempty s : split s ≠ [].
Proof.
  destruct s as [|c r]; simpl; [done|].
  destruct (Ascii.eqb c sep); [done|]. by destruct (split r).
Qed.

Lemma split_app_sep a b :
  split (a +:+ String sep b) = (split a ++ split b)%list.
Proof.
  induction a as [|c a IH]; rewrite ?append_nil, ?append_cons; simpl; [done|].
  destruct (Ascii.eqb c sep).
  - by rewrite IH.
  - rewrite IH. pose proof (split_nonempty a) as Hne.
    by destruct (split a).
Qed.

Lemma split_no_sep n : no_sep n = true → split n = [n].
Proof.
  induction n as [|c n IH]; simpl; [done|].
  intros [Hc Hn]%andb_true_iff. apply negb_true_iff in Hc.
  rewrite Hc, IH; done.
Qed.

Lemma endswith_sep_inv a :
  endswith_sep a = true → ∃ a', a = a' +:+ String sep "".
Proof.
  induction a as [|c a IH]; simpl; [done|].
  destruct a as [|c' a].
  - intros ->%Ascii.eqb_eq. by exists "".
  - intros [a' Ha]%IH. exists (String c a'). by rewrite append_cons, <- Ha.
Qed.

Lemma append_String a c b :
  (a +:+ String c "") +:+ b = a +:+ String c b.
Proof.
  induction a as [|x a IH]; rewrite ?append_nil, ?append_cons; [done|].
  by rewrite IH.
Qed.

Lemma startswith_sep_app a b :
  a ≠ "" → startswith_sep (a +:+ b) = startswith_sep a.
Proof. destruct a; [done|]. by rewrite append_cons. Qed.

Lemma startswith_sep_app_sep a b b' :
  startswith_sep (a +:+ String sep b) = startswith_sep (a +:+ String sep b').
Proof. destruct a; [done|]. by rewrite !append_cons. Qed.

Lemma no_sep_startswith n : no_sep n = true → startswith_sep n = false.
Proof.
  destruct n as [|c n]; simpl; [done|].
  intros [Hc _]%andb_true_iff. by apply negb_true_iff in Hc.
Qed.

Lemma walk_plain acc n : plain n = true → walk acc n = (acc ++ [n])%list.
Proof.
  unfold plain, walk.
  intros [[[_ H1]%andb_true_iff H2]%andb_true_iff H3]%andb_true_iff.
  apply negb_true_iff in H1, H2, H3. by rewrite H1, H2, H3.
Qed.

(** Joining a plain name to a directory adds one component. *)
Lemma abspath_join cwd a n :
  plain n = true →
  abspath cwd (join a n) = (abspath cwd a ++ [n])%list.
Proof.
  intros Hn. assert (no_sep n = true) as Hns.
  { unfold plain in Hn. by repeat (apply andb_true_iff in Hn as [Hn _]). }
  unfold join, abspath. rewrite (no_sep_startswith n Hns).
  destruct (String.eqb a "") eqn:Ha; simpl.
  { apply String.eqb_eq in Ha as ->. rewrite append_nil.
    rewrite (no_sep_startswith n Hns), (split_no_sep n Hns). simpl.
    by rewrite walk_plain. }
  apply String.eqb_neq in Ha.
  destruct (endswith_sep a) eqn:He.
  - apply endswith_sep_inv in He as [a' ->].
    rewrite append_String, (startswith_sep_app_sep a' n "").
    rewrite !split_app_sep, (split_no_sep n Hns). simpl.
    rewrite !fold_left_app. simpl. by rewrite walk_plain.
  - rewrite startswith_sep_app, split_app_sep, (split_no_sep n Hns) by done.
    rewrite fold_left_app. simpl. by rewrite walk_plain.
Qed.

(** Appending [/x/y] to a non-empty path adds two components. *)
Lemma abspath_append2 cwd a x y :
  a ≠ "" → plain x = true → plain y = true →
  abspath cwd (a +:+ String sep (x +:+ String sep y))
  = (abspath cwd a ++ [x; y])%list.
Proof.
  intros Ha Hx Hy.
  assert (no_sep x = true ∧ no_sep y = true) as [Hxs Hys].
  { unfold plain in Hx, Hy.
    split; [by repeat (apply andb_true_iff in Hx as [Hx _])
           |by repeat (apply andb_true_iff in Hy as [Hy _])]. }
  unfold abspath. rewrite startswith_sep_app by done.
  rewrite !split_app_sep, (split_no_sep x Hxs), (split_no_sep y Hys).
  rewrite !fold_left_app. simpl.
  rewrite (walk_plain _ x Hx), (walk_plain _ y Hy).
  by rewrite <- app_assoc.
Qed.

End path_facts.

(** ** The file system *)

Section fs_facts.
Implicit Types (w : world) (k : list string) (p : string).

Lemma removelast_length k : k ≠ [] → length (removelast k) < length k.
Proof.
  intros H. destruct (exists_last H) as (l & x & ->).
  rewrite removelast_last, length_app. simpl. lia.
Qed.

Lemma removelast_ne k : k ≠ [] → removelast k ≠ k.
Proof. intros H%removelast_length E. rewrite E in H. lia. Qed.

Lemma app_singleton_ne k (n : string) : (k ++ [n])%list ≠ k.
Proof. intros E%(f_equal length). rewrite length_app in E. simpl in E. lia. Qed.

Lemma removelast_ne_app k (n : string) : removelast k ≠ (k ++ [n])%list.
Proof.
  intros E%(f_equal length). rewrite length_app in E. simpl in E.
  destruct k as [|x k]; [done|].
  pose proof (removelast_length (x :: k)). naive_solver lia.
Qed.

Lemma node_at_insert w k v k' :
  node_at (with_nodes <[k := v]> w) k'
  = match k' with
    | [] => Some Dir
    | _ => if decide (k = k') then Some v else node_at w k'
    end.
Proof.
  destruct k' as [|x k']; [done|]. simpl.
  case_decide as E; [by rewrite E, lookup_insert_eq | by rewrite lookup_insert_ne].
Qed.

Lemma node_at_insert_eq w k v :
  k ≠ [] → node_at (with_nodes <[k := v]> w) k = Some v.
Proof. intros. rewrite node_at_insert. destruct k; [done|]. by rewrite decide_True. Qed.

Lemma node_at_insert_ne w k v k' :
  k ≠ k' → node_at (with_nodes <[k := v]> w) k' = node_at w k'.
Proof. intros. rewrite node_at_insert. destruct k'; [done|]. by rewrite decide_False. Qed.

Lemma node_at_stdout w f k : node_at (with_stdout f w) k = node_at w k.
Proof. by destruct k. Qed.

Lemma node_at_gcf w f k : node_at (with_gcf f w) k = node_at w k.
Proof. by destruct k. Qed.

(** An absent entry is not the root. *)
Lemma node_at_None w k : node_at w k = None → k ≠ [].
Proof. by intros H ->. Qed.

Lemma entry_Ok w k o :
  entry w k = Ok o ↔ node_at w (removelast k) = Some Dir ∧ node_at w k = o.
Proof.
  unfold entry. destruct (node_at w (removelast k)) as [[|c]|]; naive_solver.
Qed.

(** Lookups read the file system and nothing else. *)
Lemma lookup_error_ext w w' up :
  nodes w = nodes w' → lookup_error w up = lookup_error w' up.
Proof.
  intros H. induction up as [|n above IH]; simpl; [done|].
  unfold node_at. by rewrite H, IH.
Qed.

Lemma entry_ext w w' k : nodes w = nodes w' → entry w k = entry w' k.
Proof.
  intros H. unfold entry, node_at. by rewrite H, (lookup_error_ext w w').
Qed.

Lemma entry_stdout w f k : entry (with_stdout f w) k = entry w k.
Proof. by apply entry_ext. Qed.

Lemma entry_root w f k : entry (with_root f w) k = entry w k.
Proof. by apply entry_ext. Qed.


(** With no regular file on the way, the walk fails at a missing name. *)
Lemma lookup_error_no_file w up :
  (∀ k' c, k' `prefix_of` rev up → node_at w k' ≠ Some (File c)) →
  lookup_error w up = FileNotFoundError.
Proof.
  induction up as [|n above IH]; simpl; [done|]. intros H.
  destruct (node_at w (rev above)) as [[|c]|] eqn:E; [done| |].
  - destruct (H (rev above) c); [by apply prefix_app_r|done].
  - apply IH. intros k' c Hk'. apply H.
    by etrans; [exact Hk'|apply prefix_app_r].
Qed.

(** The lookup of an entry whose parent is missing, where no regular file
    is on the way. *)
Lemma entry_missing w k :
  node_at w (removelast k) = None →
  (∀ k' c, k' `prefix_of` k → node_at w k' ≠ Some (File c)) →
  entry w k = Raise FileNotFoundError.
Proof.
  intros Hpar H. unfold entry. rewrite Hpar. f_equal.
  apply lookup_error_no_file. intros k' c Hk'. apply H.
  rewrite rev_involutive in Hk'. etrans; [exact Hk'|].
  destruct (decide (k = [])) as [->|Hk]; [done|].
  destruct (exists_last Hk) as (k0 & n & ->).
  rewrite removelast_last. by apply prefix_app_r.
Qed.

(** The lookup of an entry whose parent is missing from a directory. *)
Lemma entry_missing_in_dir w k n n' :
  node_at w k = Some Dir → node_at w (k ++ [n]) = None →
  entry w (k ++ [n; n']) = Raise FileNotFoundError.
Proof.
  intros Hk Hn. unfold entry.
  change (k ++ [n; n'])%list with (k ++ ([n] ++ [n']))%list.
  rewrite app_assoc, removelast_last, Hn, rev_unit. simpl.
  by rewrite rev_involutive, Hk.
Qed.

Lemma path_exists_true w p :
  path_exists w p = true
  ↔ p ≠ "" ∧ node_at w (removelast (resolve w p)) = Some Dir
    ∧ is_Some (node_at w (resolve w p)).
Proof.
  unfold path_exists. destruct (String.eqb_spec p ""); [naive_solver|].
  destruct (entry w (resolve w p)) as [o|e] eqn:E.
  - apply entry_Ok in E as [? <-].
    destruct (node_at w (resolve w p)); naive_solver.
  - split; [done|]. intros (_ & Hp & [x Hx]).
    assert (entry w (resolve w p) = Ok (Some x)) by by apply entry_Ok.
    congruence.
Qed.

End fs_facts.

(** ** [save_checkpoint] *)

Section save_checkpoint_facts.
Implicit Types (w : world) (state : gmap string pyobj) (checkpoint : string).

(** Where the artifact of a checkpoint directory lives. *)
Lemma resolve_filepath w checkpoint :
  resolve w (Path.join checkpoint "model.pth.tar")
  = (resolve w checkpoint ++ ["model.pth.tar"])%list.
Proof. by apply abspath_join. Qed.

Lemma write_file_run p c w :
  write_file p c w
  = if String.eqb p "" then (Raise FileNotFoundError, w)
    else match entry w (resolve w p) with
         | Ok (Some Dir) => (Raise IsADirectoryError, w)
         | Ok _ => (Ok tt, with_nodes <[resolve w p := File c]> w)
         | Raise e => (Raise e, w)
         end.
Proof.
  unfold write_file. destruct (String.eqb p ""); [done|]. unfold_M.
  by destruct (entry w (resolve w p)) as [[[|?]|]|].
Qed.

Lemma os_mkdir_run p w :
  os_mkdir p w
  = if String.eqb p "" then (Raise FileNotFoundError, w)
    else match entry w (resolve w p) with
         | Ok (Some _) => (Raise FileExistsError, w)
         | Ok None => (Ok tt, with_nodes <[resolve w p := Dir]> w)
         | Raise e => (Raise e, w)
         end.
Proof.
  unfold os_mkdir. destruct (String.eqb p ""); [done|]. unfold_M.
  by destruct (entry w (resolve w p)) as [[?|]|].
Qed.

Lemma join_nonempty a b : b ≠ "" → Path.join a b ≠ "".
Proof.
  unfold Path.join. intros Hb. destruct (Path.startswith_sep b); [done|].
  destruct (String.eqb_spec a "") as [->|Ha]; simpl; [done|].
  destruct a; [done|].
  by destruct (Path.endswith_sep _); rewrite append_cons.
Qed.


Lemma save_checkpoint_run state checkpoint w :
  save_checkpoint state checkpoint w
  = if path_exists w checkpoint then
      write_file (Path.join checkpoint "model.pth.tar") (Pickle state)
        (with_stdout (λ out, out ++ [Text "Checkpoint Directory exists! "])%list w)
    else
      match os_mkdir checkpoint
              (with_stdout (λ out, out ++
                 [Text ("Checkpoint Directory does not exist! Making directory "
                        +:+ checkpoint)])%list w) with
      | (Ok _, w') =>
          write_file (Path.join checkpoint "model.pth.tar") (Pickle state) w'
      | (Raise e, w') => (Raise e, w')
      end.
Proof.
  unfold save_checkpoint, torch_save, os_path_exists, print. unfold_M.
  destruct (path_exists w checkpoint); simpl; [done|].
  by destruct (os_mkdir _ _) as [[[]|?] ?].
Qed.

(** What a successful save leaves behind. *)
Lemma save_checkpoint_post state checkpoint w w1 :
  save_checkpoint state checkpoint w = (Ok tt, w1) →
  let kd := resolve w checkpoint in
  let kf := (kd ++ ["model.pth.tar"])%list in
  checkpoint ≠ "" ∧ cwd w1 = cwd w ∧ heap w1 = heap w
  ∧ node_at w1 (removelast kd) = Some Dir
  ∧ node_at w1 kd = Some Dir
  ∧ node_at w1 kf = Some (File (Pickle state))
  ∧ (path_exists w checkpoint = false →
     nodes w1 = <[kf := File (Pickle state)]> (<[kd := Dir]> (nodes w))).
Proof.
  intros H kd kf. rewrite save_checkpoint_run in H.
  assert (kf ≠ []) as Hkf by (by destruct kd).
  assert (removelast kf = kd) as Hrl by apply removelast_last.
  destruct (path_exists w checkpoint) eqn:Ex.
  - apply path_exists_true in Ex as (Hne & Hpar & _).
    rewrite write_file_run in H.
    destruct (String.eqb _ ""); [done|].
    rewrite resolve_filepath in H. change (resolve _ checkpoint) with kd in H.
    fold kf in H.
    destruct (entry _ kf) as [o|] eqn:E; [|done].
    apply entry_Ok in E as [Hd _]. rewrite Hrl, node_at_stdout in Hd.
    assert (w1 = with_nodes <[kf := File (Pickle state)]>
                   (with_stdout (λ out, out ++ [Text "Checkpoint Directory exists! "])%list w))
      as -> by (destruct o as [[|?]|]; congruence).
    repeat split; [done|..|done].
    + rewrite node_at_insert_ne, node_at_stdout; [done|]. apply not_eq_sym, removelast_ne_app.
    + rewrite node_at_insert_ne, node_at_stdout; [done|]. apply app_singleton_ne.
    + by rewrite node_at_insert_eq.
  - rewrite os_mkdir_run in H.
    destruct (String.eqb_spec checkpoint ""); [done|].
    change (resolve _ checkpoint) with kd in H.
    destruct (entry _ kd) as [[?|]|] eqn:E; [done| |done].
    apply entry_Ok in E as [Hpar Hno]. rewrite node_at_stdout in Hpar, Hno.
    pose proof (node_at_None _ _ Hno) as Hkd.
    rewrite write_file_run in H.
    destruct (String.eqb _ ""); [done|].
    rewrite resolve_filepath in H. change (resolve _ checkpoint) with kd in H.
    fold kf in H.
    destruct (entry _ kf) as [o|] eqn:E; [|done].
    match type of H with context [with_nodes ?f ?w'] =>
      assert (w1 = with_nodes f w') as -> by (destruct o as [[|?]|]; congruence)
    end.
    repeat split; [done|..].
    + rewrite !node_at_insert_ne, node_at_stdout; [done|..].
      * by apply not_eq_sym, removelast_ne.
      * apply not_eq_sym, removelast_ne_app.
    + rewrite node_at_insert_ne; [by rewrite node_at_insert_eq|]. apply app_singleton_ne.
    + by rewrite node_at_insert_eq.
Qed.




End save_checkpoint_facts.



(** ** [load_checkpoint] *)

Section load_checkpoint_facts.
Implicit Types (w : world) (d : gmap string pyobj) (p : string).
Implicit Types (g dn og od : loc).

Lemma holds_artifact_exists w p d :
  holds_artifact w p d → path_exists w p = true.
Proof.
  intros [Hne [Hpar Hf]%entry_Ok]. apply path_exists_true. by rewrite Hf.
Qed.

Lemma torch_load_run w p d :
  holds_artifact w p d → torch_load p w = (Ok d, w).
Proof.
  intros [Hne He]. unfold torch_load, read_file.
  destruct (String.eqb_spec p ""); [done|]. unfold_M. by rewrite He.
Qed.

(** A missing path: the function stops at its first statement. *)
Lemma load_checkpoint_missing w p model optimizer :
  path_exists w p = false →
  load_checkpoint p model optimizer w
  = (Raise (TypeError "exceptions must derive from BaseException"), w).
Proof.
  intros H. unfold load_checkpoint, os_path_exists, raise_str. unfold_M.
  by rewrite H.
Qed.

(** On an artifact, the function is the sequence of its dictionary reads
    and in-place loads. *)
Lemma load_checkpoint_run w p d g dn optimizer :
  holds_artifact w p d →
  load_checkpoint p (g, dn) optimizer w
  = match d !! "iters" with
    | None => (Raise (KeyError "iters"), w)
    | Some iters =>
    match d !! "gen_loss_history" with
    | None => (Raise (KeyError "gen_loss_history"), w)
    | Some gh =>
    match d !! "dis_loss_history" with
    | None => (Raise (KeyError "dis_loss_history"), w)
    | Some dh =>
    match d !! "dis_loss_real_history" with
    | None => (Raise (KeyError "dis_loss_real_history"), w)
    | Some rh =>
    match d !! "dis_loss_fake_history" with
    | None => (Raise (KeyError "dis_loss_fake_history"), w)
    | Some fh =>
    match d !! "gen_state_dict" with
    | None => (Raise (KeyError "gen_state_dict"), w)
    | Some gsd =>
    let w1 := with_heap <[g := gsd]> w in
    match d !! "dis_state_dict" with
    | None => (Raise (KeyError "dis_state_dict"), w1)
    | Some dsd =>
    let w2 := with_heap <[dn := dsd]> w1 in
    match optimizer with
    | None => (Ok (iters, g, dn, gh, dh, rh, fh), w2)
    | Some (og, od) =>
    match d !! "optim_G_state_dict" with
    | None => (Raise (KeyError "optim_G_state_dict"), w2)
    | Some a =>
    let w3 := with_heap <[og := a]> w2 in
    match d !! "optim_D_state_dict" with
    | None => (Raise (KeyError "optim_D_state_dict"), w3)
    | Some b => (Ok (iters, g, dn, gh, dh, rh, fh), with_heap <[od := b]> w3)
    end end end end end end end end end end.
Proof.
  intros H. unfold load_checkpoint, os_path_exists, raise_str. unfold_M.
  rewrite (holds_artifact_exists _ _ _ H). simpl.
  rewrite (torch_load_run _ _ _ H).
  unfold dict_getitem, load_state_dict. unfold_M.
  repeat (match goal with |- context [?m !! ?k] => destruct (m !! k) end;
          simpl; try done).
  all: destruct optimizer as [[og od]|]; simpl; try done.
  all: repeat (match goal with |- context [?m !! ?k] => destruct (m !! k) end;
               simpl; try done).
Qed.

End load_checkpoint_facts.

(** C3. On a path that does not exist, [load_checkpoint] fails at once and
    leaves the world, and with it both networks, as it was.  The exception
    is Python's [TypeError] for raising a string, not a not-found error;
    the message naming the file is lost. *)
Theorem load_checkpoint_missing_path (w : world) (p : string)
    (model : loc * loc) (optimizer : option (loc * loc)) :
  path_exists w p = false →
  load_checkpoint p model optimizer w
  = (Raise (TypeError "exceptions must derive from BaseException"), w)
  ∧ (load_checkpoint p model optimizer w).1 ≠ Raise FileNotFoundError.
Proof. intros H. by rewrite load_checkpoint_missing. Qed.

Lemma load_checkpoint_missing_path_witness :
  path_exists (Sample.with_objects Sample.w0) "ckpt/model.pth.tar" = false
  ∧ load_checkpoint "ckpt/model.pth.tar" (Sample.G, Sample.D) None
      (Sample.with_objects Sample.w0)
    = (Raise (TypeError "exceptions must derive from BaseException"),
       Sample.with_objects Sample.w0).
Proof.
  assert (path_exists (Sample.with_objects Sample.w0) "ckpt/model.pth.tar" = false)
    as H by (vm_compute; reflexivity).
  split; [exact H|].
  exact (proj1 (load_checkpoint_missing_path _ "ckpt/model.pth.tar"
                  (Sample.G, Sample.D) None H)).
Defined.

(** C4. An artifact saved without optimizer state, loaded with an optimizer
    pair: the call does not return; it raises [KeyError] for a field the
    artifact lacks (the missing-field error of a corrupt checkpoint). *)
Theorem load_checkpoint_optimizer_absent (w : world) (p : string)
    (d : gmap string pyobj) (g dn og od : loc) :
  holds_artifact w p d →
  d !! "optim_G_state_dict" = None ∨ d !! "optim_D_state_dict" = None →
  ∃ key w',
    load_checkpoint p (g, dn) (Some (og, od)) w = (Raise (KeyError key), w')
    ∧ d !! key = None.
Proof.
  intros H Hno. rewrite (load_checkpoint_run _ _ _ _ _ _ H).
  repeat (match goal with
          | |- context [d !! ?k] => destruct (d !! k) eqn:?
          | |- ∃ key w', (Raise (KeyError ?k), ?w1) = _ ∧ _ => by exists k, w1
          end; simpl).
  naive_solver.
Qed.

(** C5. On an artifact that has every field the function reads, the call
    returns the stored iteration count, the two network references and the
    four stored histories, and has loaded the stored states in place: into
    the generator and the discriminator, and into the optimizers when a pair
    is given. *)
Theorem load_checkpoint_returns (w : world) (p : string)
    (d : gmap string pyobj) (g dn : loc) (iters gh dh rh fh gsd dsd : pyobj) :
  holds_artifact w p d →
  d !! "iters" = Some iters →
  d !! "gen_loss_history" = Some gh →
  d !! "dis_loss_history" = Some dh →
  d !! "dis_loss_real_history" = Some rh →
  d !! "dis_loss_fake_history" = Some fh →
  d !! "gen_state_dict" = Some gsd →
  d !! "dis_state_dict" = Some dsd →
  load_checkpoint p (g, dn) None w
  = (Ok (iters, g, dn, gh, dh, rh, fh),
     with_heap (λ h, <[dn := dsd]> (<[g := gsd]> h)) w)
  ∧ ∀ og od a b,
      d !! "optim_G_state_dict" = Some a →
      d !! "optim_D_state_dict" = Some b →
      load_checkpoint p (g, dn) (Some (og, od)) w
      = (Ok (iters, g, dn, gh, dh, rh, fh),
         with_heap (λ h, <[od := b]> (<[og := a]> (<[dn := dsd]> (<[g := gsd]> h)))) w).
Proof.
  intros H Hi Hgh Hdh Hrh Hfh Hg Hd. split.
  - rewrite (load_checkpoint_run _ _ _ _ _ _ H).
    by rewrite Hi, Hgh, Hdh, Hrh, Hfh, Hg, Hd.
  - intros og od a b Ha Hb. rewrite (load_checkpoint_run _ _ _ _ _ _ H).
    by rewrite Hi, Hgh, Hdh, Hrh, Hfh, Hg, Hd, Ha, Hb.
Qed.

Lemma load_checkpoint_optimizer_absent_witness :
  holds_artifact (Sample.saved (Sample.state4 7)) "ckpt/model.pth.tar"
    (Sample.state4 7)
  ∧ Sample.state4 7 !! "optim_G_state_dict" = None
  ∧ ∃ key w',
      load_checkpoint "ckpt/model.pth.tar" (Sample.G, Sample.D)
        (Some (Sample.OG, Sample.OD)) (Sample.saved (Sample.state4 7))
      = (Raise (KeyError key), w')
      ∧ Sample.state4 7 !! key = None.
Proof.
  assert (holds_artifact (Sample.saved (Sample.state4 7)) "ckpt/model.pth.tar"
            (Sample.state4 7)) as H1 by (split; [done | vm_compute; reflexivity]).
  assert (Sample.state4 7 !! "optim_G_state_dict" = None) as H2
    by (vm_compute; reflexivity).
  exact (conj H1 (conj H2
    (load_checkpoint_optimizer_absent _ _ _ Sample.G Sample.D Sample.OG Sample.OD
       H1 (or_introl H2)))).
Defined.

Lemma load_checkpoint_returns_witness :
  holds_artifact (Sample.saved (Sample.state6 7)) "ckpt/model.pth.tar"
    (Sample.state6 7)
  ∧ load_checkpoint "ckpt/model.pth.tar" (Sample.G, Sample.D) None
      (Sample.saved (Sample.state6 7))
    = (Ok (PyInt 7, Sample.G, Sample.D, history [1; 2]%Z, history [3; 4]%Z,
           history [5; 6]%Z, history [7; 8]%Z),
       with_heap (λ h, <[Sample.D := Sample.weights 20]>
                         (<[Sample.G := Sample.weights 10]> h))
         (Sample.saved (Sample.state6 7))).
Proof.
  assert (holds_artifact (Sample.saved (Sample.state6 7)) "ckpt/model.pth.tar"
            (Sample.state6 7)) as H by (split; [done | vm_compute; reflexivity]).
  split; [exact H|].
  refine (proj1 (load_checkpoint_returns _ _ _ Sample.G Sample.D
                   _ _ _ _ _ _ _ H _ _ _ _ _ _ _)); vm_compute; reflexivity.
Defined.

(** C9. Load is not atomic: on an artifact that has the iteration count, the
    four histories and both network states but no generator-optimizer state,
    a call with an optimizer pair raises [KeyError] only after both networks
    were loaded in place; the world it leaves has the stored states in the
    generator and the discriminator. *)
Theorem load_checkpoint_not_atomic (w : world) (p : string)
    (d : gmap string pyobj) (g dn og od : loc)
    (iters gh dh rh fh gsd dsd : pyobj) :
  holds_artifact w p d →
  d !! "iters" = Some iters →
  d !! "gen_loss_history" = Some gh →
  d !! "dis_loss_history" = Some dh →
  d !! "dis_loss_real_history" = Some rh →
  d !! "dis_loss_fake_history" = Some fh →
  d !! "gen_state_dict" = Some gsd →
  d !! "dis_state_dict" = Some dsd →
  d !! "optim_G_state_dict" = None →
  ∃ w',
    load_checkpoint p (g, dn) (Some (og, od)) w
    = (Raise (KeyError "optim_G_state_dict"), w')
    ∧ heap w' = <[dn := dsd]> (<[g := gsd]> (heap w))
    ∧ heap w' !! dn = Some dsd
    ∧ (g ≠ dn → heap w' !! g = Some gsd).
Proof.
  intros H Hi Hgh Hdh Hrh Hfh Hg Hd Ho.
  rewrite (load_checkpoint_run _ _ _ _ _ _ H).
  rewrite Hi, Hgh, Hdh, Hrh, Hfh, Hg, Hd, Ho. simpl.
  eexists. split; [done|]. simpl. split; [done|]. split.
  - by rewrite lookup_insert_eq.
  - intros Hne. rewrite lookup_insert_ne by done. by rewrite lookup_insert_eq.
Qed.

Lemma load_checkpoint_not_atomic_witness :
  holds_artifact (Sample.saved (Sample.state4 7)) "ckpt/model.pth.tar"
    (Sample.state4 7)
  ∧ ∃ w',
      load_checkpoint "ckpt/model.pth.tar" (Sample.G, Sample.D)
        (Some (Sample.OG, Sample.OD)) (Sample.saved (Sample.state4 7))
      = (Raise (KeyError "optim_G_state_dict"), w')
      ∧ heap w' = <[Sample.D := Sample.weights 20]>
                    (<[Sample.G := Sample.weights 10]>
                       (heap (Sample.saved (Sample.state4 7))))
      ∧ heap w' !! Sample.D = Some (Sample.weights 20)
      ∧ (Sample.G ≠ Sample.D → heap w' !! Sample.G = Some (Sample.weights 10)).
Proof.
  assert (holds_artifact (Sample.saved (Sample.state4 7)) "ckpt/model.pth.tar"
            (Sample.state4 7)) as H by (split; [done | vm_compute; reflexivity]).
  split; [exact H|].
  refine (load_checkpoint_not_atomic _ _ _ Sample.G Sample.D Sample.OG Sample.OD
            _ _ _ _ _ _ _ H _ _ _ _ _ _ _ _); vm_compute; reflexivity.
Defined.

(** The artifact of the specification's own record has both network states
    and no optimizer state; loading it with an optimizer pair fails on a
    history field, before any network was touched. *)
Lemma load_checkpoint_not_atomic_counterexample :
  let d := to_state Sample.record2 in
  let w := Sample.saved d in
  holds_artifact w "ckpt/model.pth.tar" d
  ∧ d !! "gen_state_dict" = Some (PyStateDict (generator_state Sample.record2))
  ∧ d !! "dis_state_dict" = Some (PyStateDict (discriminator_state Sample.record2))
  ∧ d !! "optim_G_state_dict" = None
  ∧ d !! "optim_D_state_dict" = None
  ∧ load_checkpoint "ckpt/model.pth.tar" (Sample.G, Sample.D)
      (Some (Sample.OG, Sample.OD)) w
    = (Raise (KeyError "dis_loss_real_history"), w)
  ∧ heap w !! Sample.G = Some (Sample.weights 0)
  ∧ heap w !! Sample.D = Some (Sample.weights 1).
Proof.
  intros d w.
  assert (holds_artifact w "ckpt/model.pth.tar" d) as H
    by (split; [done | vm_compute; reflexivity]).
  split; [exact H|].
  rewrite (load_checkpoint_run _ _ _ _ _ _ H).
  repeat split; vm_compute; reflexivity.
Qed.

(** ** Round trip *)

(** C1. Round trip of a state that carries the four loss histories: after a
    successful [save_checkpoint state dir], [load_checkpoint] on the artifact
    returns the iteration count and the four histories stored in [state] and
    puts the stored network states into the generator and the discriminator;
    with an optimizer pair, and optimizer states in [state], it restores
    those too. *)
Theorem checkpoint_round_trip (state : gmap string pyobj) (dir : string)
    (w w1 : world) (g dn : loc) (iters gh dh rh fh gsd dsd : pyobj) :
  save_checkpoint state dir w = (Ok tt, w1) →
  state !! "iters" = Some iters →
  state !! "gen_loss_history" = Some gh →
  state !! "dis_loss_history" = Some dh →
  state !! "dis_loss_real_history" = Some rh →
  state !! "dis_loss_fake_history" = Some fh →
  state !! "gen_state_dict" = Some gsd →
  state !! "dis_state_dict" = Some dsd →
  let path := Path.join dir "model.pth.tar" in
  (∃ w2,
     load_checkpoint path (g, dn) None w1
     = (Ok (iters, g, dn, gh, dh, rh, fh), w2)
     ∧ heap w2 = <[dn := dsd]> (<[g := gsd]> (heap w))
     ∧ heap w2 !! dn = Some dsd
     ∧ (g ≠ dn → heap w2 !! g = Some gsd))
  ∧ ∀ og od a b,
      state !! "optim_G_state_dict" = Some a →
      state !! "optim_D_state_dict" = Some b →
      ∃ w2,
        load_checkpoint path (g, dn) (Some (og, od)) w1
        = (Ok (iters, g, dn, gh, dh, rh, fh), w2)
        ∧ heap w2
          = <[od := b]> (<[og := a]> (<[dn := dsd]> (<[g := gsd]> (heap w)))).
Proof.
  intros Hs Hi Hgh Hdh Hrh Hfh Hg Hd path.
  apply save_checkpoint_post in Hs as (Hne & Hcwd & Hheap & _ & Hkd & Hkf & _).
  assert (holds_artifact w1 path state) as H.
  { split; [by apply join_nonempty|].
    unfold path. rewrite resolve_filepath. unfold resolve. rewrite Hcwd.
    apply entry_Ok. by rewrite removelast_last. }
  split.
  - rewrite (load_checkpoint_run _ _ _ _ _ _ H).
    rewrite Hi, Hgh, Hdh, Hrh, Hfh, Hg, Hd. simpl.
    eexists. split; [done|]. simpl. rewrite Hheap. split; [done|]. split.
    + by rewrite lookup_insert_eq.
    + intros ?. rewrite lookup_insert_ne by done. by rewrite lookup_insert_eq.
  - intros og od a b Ha Hb. rewrite (load_checkpoint_run _ _ _ _ _ _ H).
    rewrite Hi, Hgh, Hdh, Hrh, Hfh, Hg, Hd, Ha, Hb. simpl.
    eexists. split; [done|]. simpl. by rewrite Hheap.
Qed.

Lemma checkpoint_round_trip_witness :
  let w := Sample.with_objects Sample.w0 in
  let w1 := Sample.saved (Sample.state4 7) in
  save_checkpoint (Sample.state4 7) "ckpt" w = (Ok tt, w1)
  ∧ ∃ w2,
      load_checkpoint (Path.join "ckpt" "model.pth.tar") (Sample.G, Sample.D)
        None w1
      = (Ok (PyInt 7, Sample.G, Sample.D, history [1; 2]%Z, history [3; 4]%Z,
             history [5; 6]%Z, history [7; 8]%Z), w2)
      ∧ heap w2 = <[Sample.D := Sample.weights 20]>
                    (<[Sample.G := Sample.weights 10]> (heap w))
      ∧ heap w2 !! Sample.D = Some (Sample.weights 20)
      ∧ (Sample.G ≠ Sample.D → heap w2 !! Sample.G = Some (Sample.weights 10)).
Proof.
  intros w w1.
  assert (save_checkpoint (Sample.state4 7) "ckpt" w = (Ok tt, w1)) as H
    by (vm_compute; reflexivity).
  split; [exact H|].
  refine (proj1 (checkpoint_round_trip _ _ _ _ Sample.G Sample.D
                   _ _ _ _ _ _ _ H _ _ _ _ _ _ _)); vm_compute; reflexivity.
Defined.

(** A valid record of the specification (two histories) does not survive
    the round trip: the save succeeds, the load raises [KeyError] for the
    discriminator-real history and restores nothing. *)
Lemma checkpoint_round_trip_counterexample :
  let w := Sample.with_objects Sample.w0 in
  let w1 := Sample.saved (to_state Sample.record2) in
  valid Sample.record2
  ∧ save_checkpoint (to_state Sample.record2) "ckpt" w = (Ok tt, w1)
  ∧ load_checkpoint (Path.join "ckpt" "model.pth.tar") (Sample.G, Sample.D)
      None w1
    = (Raise (KeyError "dis_loss_real_history"), w1)
  ∧ heap w1 = heap w.
Proof.
  intros w w1. split; [by split|].
  repeat split; vm_compute; reflexivity.
Qed.

(** ** [Params.update] *)

Section params_facts.
Import Params.
Implicit Types (members : list (string * json)) (d self : gmap string json).

Lemma object_pairs_absent members d key :
  key ∉ members.*1 → object_pairs members d !! key = d !! key.
Proof.
  revert d. induction members as [|[k v] members IH]; intros d Hk; [done|].
  simpl in *. apply not_elem_of_cons in Hk as [Hne Hk].
  rewrite IH by done. by rewrite lookup_insert_ne.
Qed.

(** A name of the object is bound to the value of its last occurrence. *)
Lemma object_pairs_last members members' d key v :
  key ∉ members'.*1 →
  object_pairs (members ++ (key, v) :: members') d !! key = Some v.
Proof.
  intros Hk. unfold object_pairs. rewrite fold_left_app. simpl.
  fold (object_pairs members' (<[key := v]> (fold_left (λ d kv, <[kv.1 := kv.2]> d) members d))).
  rewrite object_pairs_absent by done. by rewrite lookup_insert_eq.
Qed.

Lemma object_pairs_present members d key :
  key ∈ members.*1 →
  ∃ v, (key, v) ∈ members ∧ object_pairs members d !! key = Some v.
Proof.
  revert d. induction members as [|[k v] members IH]; intros d Hk.
  { by apply elem_of_nil in Hk. }
  destruct (decide (key ∈ members.*1)) as [Hin|Hout].
  - destruct (IH (<[k := v]> d) Hin) as (v' & Hv' & Hl).
    exists v'. split; [by right | done].
  - simpl in Hk. apply elem_of_cons in Hk as [->|]; [|done].
    exists v. split; [by left|].
    by apply (object_pairs_last [] members).
Qed.

Lemma update_run self json_path w members :
  json_path ≠ "" →
  entry w (resolve w json_path) = Ok (Some (File (JsonDoc members))) →
  update self json_path w = (Ok (object_pairs members ∅ ∪ self), w).
Proof.
  intros Hne He. unfold update, read_file, json_load, dict_update.
  destruct (String.eqb_spec json_path ""); [done|]. unfold_M. by rewrite He.
Qed.

End params_facts.

(** C10. [Params.update] merges: on a JSON file whose top-level value is an
    object, the call returns with every attribute whose key is absent from
    the file unchanged, and every key of the file set to the file's value for
    it (the last one, should the file repeat a key). *)
Theorem Params_update_merges (self : gmap string json) (json_path : string)
    (w : world) (members : list (string * json)) :
  json_path ≠ "" →
  entry w (resolve w json_path) = Ok (Some (File (JsonDoc members))) →
  ∃ self',
    Params.update self json_path w = (Ok self', w)
    ∧ (∀ key, key ∉ members.*1 → self' !! key = self !! key)
    ∧ (∀ key, key ∈ members.*1 →
         ∃ v, (key, v) ∈ members ∧ self' !! key = Some v)
    ∧ (∀ before key v after,
         members = (before ++ (key, v) :: after)%list → key ∉ after.*1 →
         self' !! key = Some v).
Proof.
  intros Hne He. eexists. split; [by apply update_run|].
  split; [|split].
  - intros key Hk. rewrite lookup_union_r; [done|].
    by rewrite object_pairs_absent.
  - intros key Hk.
    destruct (object_pairs_present members ∅ key Hk) as (v & Hv & Hl).
    exists v. split; [done|]. by rewrite (lookup_union_Some_l _ _ _ _ Hl).
  - intros before key v after -> Hk.
    apply lookup_union_Some_l. by apply object_pairs_last.
Qed.

Lemma Params_update_merges_witness :
  let w := Sample.with_config Sample.w0 in
  entry w (resolve w "params.json") = Ok (Some (File (JsonDoc Sample.config)))
  ∧ ∃ self',
      Params.update Sample.params0 "params.json" w = (Ok self', w)
      ∧ self' !! "beta1" = Some (JNum 9)
      ∧ self' !! "batch_size" = Some (JNum 64)
      ∧ self' !! "learning_rate" = Some (JNum 2).
Proof.
  intros w.
  assert (entry w (resolve w "params.json")
          = Ok (Some (File (JsonDoc Sample.config)))) as He
    by (vm_compute; reflexivity).
  split; [exact He|].
  destruct (Params_update_merges Sample.params0 "params.json" w Sample.config
              ltac:(done) He) as (self' & Hrun & Habs & _ & Hlast).
  exists self'. split; [exact Hrun|]. split; [|split].
  - rewrite (Habs "beta1"); [vm_compute; reflexivity|].
    intros H. by repeat (apply elem_of_cons in H as [H|H]; [done|]);
      apply elem_of_nil in H.
  - apply (Hlast [("learning_rate", JNum 1)] "batch_size" (JNum 64)
             [("learning_rate", JNum 2)]); [done|].
    intros H. by repeat (apply elem_of_cons in H as [H|H]; [done|]);
      apply elem_of_nil in H.
  - apply (Hlast [("learning_rate", JNum 1); ("batch_size", JNum 64)]
             "learning_rate" (JNum 2) []); [done|]. apply not_elem_of_nil.
Defined.

(** ** [row_csv2dict] *)

Section csv_facts.
Implicit Types (rows : list (list string)).
Implicit Types (acc : gmap (string * string) string).

Lemma for_row_spec rows :
  Forall (λ row, length row = 3) rows →
  ∀ acc w, ∃ m,
    for_row rows acc w = (Ok m, w)
    ∧ (∀ a b, Forall (other_key a b) rows → m !! (a, b) = acc !! (a, b))
    ∧ (∀ before a b c after,
         rows = (before ++ [a; b; c] :: after)%list →
         Forall (other_key a b) after → m !! (a, b) = Some c).
Proof.
  induction 1 as [|row rows Hrow _ IH]; intros acc w.
  { exists acc. split; [done|]. split; [done|].
    intros before ????. by destruct before. }
  destruct row as [|a0 [|b0 [|c0 [|]]]]; try done.
  destruct (IH (<[(a0, b0) := c0]> acc) w) as (m & Hrun & Hframe & Hlast).
  exists m. split; [|split].
  - simpl. unfold list_getitem. simpl. unfold_M. exact Hrun.
  - intros a b [Hk Hrest]%Forall_cons. rewrite Hframe by done.
    apply lookup_insert_ne. intros [= -> ->]. by apply Hk.
  - intros before a b c after E Hafter. destruct before as [|r before].
    + simplify_eq/=. rewrite Hframe by done. apply lookup_insert_eq.
    + simplify_eq/=. by eapply Hlast.
Qed.

End csv_facts.

(** C7. On a CSV file whose rows have exactly three fields, [row_csv2dict]
    returns a mapping in which each key pair [(a, b)] maps to the third field
    of the last row [(a, b, c)] with that pair, and a pair of no row is
    absent. *)
Theorem row_csv2dict_last_row (csv_file : string) (w : world)
    (rows : list (list string)) :
  csv_file ≠ "" →
  entry w (resolve w csv_file) = Ok (Some (File (CsvText rows))) →
  Forall (λ row, length row = 3) rows →
  ∃ m,
    row_csv2dict csv_file w = (Ok m, w)
    ∧ (∀ before a b c after,
         rows = (before ++ [a; b; c] :: after)%list →
         Forall (other_key a b) after → m !! (a, b) = Some c)
    ∧ (∀ a b, Forall (other_key a b) rows → m !! (a, b) = None).
Proof.
  intros Hne He Hrows.
  destruct (for_row_spec rows Hrows ∅ w) as (m & Hrun & Hframe & Hlast).
  exists m. split; [|split; [done|]].
  - unfold row_csv2dict, read_file, csv_reader.
    destruct (String.eqb_spec csv_file ""); [done|]. unfold_M.
    by rewrite He.
  - intros a b Hab. by rewrite Hframe.
Qed.

Lemma row_csv2dict_last_row_witness :
  let w := Sample.with_table Sample.w0 in
  entry w (resolve w "table.csv") = Ok (Some (File (CsvText Sample.table)))
  ∧ Forall (λ row, length row = 3) Sample.table
  ∧ ∃ m,
      row_csv2dict "table.csv" w = (Ok m, w)
      ∧ m !! ("a", "b") = Some "second"
      ∧ m !! ("c", "d") = Some "other".
Proof.
  intros w.
  assert (entry w (resolve w "table.csv")
          = Ok (Some (File (CsvText Sample.table)))) as He
    by (vm_compute; reflexivity).
  assert (Forall (λ row, length row = 3) Sample.table) as Hrows
    by (repeat constructor).
  split; [exact He|]. split; [exact Hrows|].
  destruct (row_csv2dict_last_row "table.csv" w Sample.table ltac:(done) He Hrows)
    as (m & Hrun & Hlast & _).
  exists m. split; [exact Hrun|]. split.
  - apply (Hlast [["a"; "b"; "first"]; ["c"; "d"; "other"]] "a" "b" "second" []);
      [done | constructor].
  - apply (Hlast [["a"; "b"; "first"]] "c" "d" "other" [["a"; "b"; "second"]]);
      [done|]. constructor; [|constructor]. intros [[=] _].
Defined.

(** A file with a repeated key pair: the row [(a, b, first)] is in the file,
    and the mapping sends [(a, b)] to [second]. *)
Lemma row_csv2dict_counterexample :
  let w := Sample.with_table Sample.w0 in
  Forall (λ row, length row = 3) Sample.table
  ∧ ["a"; "b"; "first"] ∈ Sample.table
  ∧ ∃ m,
      row_csv2dict "table.csv" w = (Ok m, w)
      ∧ m !! ("a", "b") = Some "second"
      ∧ m !! ("a", "b") ≠ Some "first".
Proof.
  intros w. split; [repeat constructor|]. split; [by left|].
  exists (<[("a", "b") := "second"]> (<[("c", "d") := "other"]> ∅)).
  split; [vm_compute; reflexivity|].
  split; [vm_compute; reflexivity|]. vm_compute. congruence.
Qed.

(** ** [set_logger] *)

Section logger_facts.
Implicit Types (w : world) (p : string).

Lemma open_append_run k w :
  open_append k w
  = match entry w k with
    | Ok (Some Dir) => (Raise IsADirectoryError, w)
    | Ok (Some (File _)) => (Ok tt, w)
    | Ok None => (Ok tt, with_nodes <[k := File Empty]> w)
    | Raise e => (Raise e, w)
    end.
Proof.
  unfold open_append. unfold_M. by destruct (entry w k) as [[[|?]|]|].
Qed.

(** With handlers in place, [set_logger] only sets the level. *)
Lemma set_logger_configured p w h hs :
  handlers (root w) = h :: hs →
  set_logger p w = (Ok tt, with_root (λ lg, Logger INFO (handlers lg)) w).
Proof.
  intros H. unfold set_logger, setLevel. unfold_M. simpl. by rewrite H.
Qed.

(** On a root logger without handlers, a successful [set_logger] installs
    the file handler and the console handler, in this order. *)
Lemma set_logger_fresh p w w1 :
  handlers (root w) = [] →
  set_logger p w = (Ok tt, w1) →
  root w1
  = Logger INFO
      [Handler (FileSink (resolve w p))
         (Some "%(asctime)s:%(levelname)s: %(message)s");
       Handler ConsoleSink (Some "%(message)s")].
Proof.
  intros H. unfold set_logger, setLevel, FileHandler, StreamHandler, addHandler.
  unfold_M. simpl. rewrite H. rewrite open_append_run.
  destruct (entry _ _) as [[[|?]|]|]; intros [= <-]; simpl; by rewrite H.
Qed.

(** A second call changes nothing. *)
Lemma set_logger_again p p' w w1 :
  set_logger p w = (Ok tt, w1) → set_logger p' w1 = (Ok tt, w1).
Proof.
  destruct (handlers (root w)) as [|h hs] eqn:H.
  - intros Hrun. pose proof (set_logger_fresh _ _ _ H Hrun) as Hroot.
    rewrite (set_logger_configured p' w1 _ _ (f_equal handlers Hroot)).
    destruct w1 as [? ? ? ? [lv hs1] ?]. simpl in *. by simplify_eq.
  - rewrite (set_logger_configured p w h hs H). intros [= <-].
    by rewrite (set_logger_configured p' _ h hs).
Qed.

End logger_facts.

(** C8. Calling [set_logger] twice: once the first call has returned, the
    second call, whatever its path, returns with the world unchanged, so it
    adds no handler; and in a process whose root logger had no handler before
    the first call, the root logger then has exactly the file handler of the
    first path and one console handler. *)
Theorem set_logger_twice (log_path1 log_path2 : string) (w w1 : world) :
  set_logger log_path1 w = (Ok tt, w1) →
  set_logger log_path2 w1 = (Ok tt, w1)
  ∧ (handlers (root w) = [] →
     handlers (root w1)
     = [Handler (FileSink (resolve w log_path1))
          (Some "%(asctime)s:%(levelname)s: %(message)s");
        Handler ConsoleSink (Some "%(message)s")]
     ∧ length (List.filter is_file_handler (handlers (root w1))) = 1
     ∧ length (List.filter is_console_handler (handlers (root w1))) = 1).
Proof.
  intros Hrun. split; [by eapply set_logger_again|].
  intros H. by rewrite (set_logger_fresh _ _ _ H Hrun).
Qed.

Lemma set_logger_twice_witness :
  let w1 := Sample.after (set_logger "train.log") Sample.w0 in
  handlers (root Sample.w0) = []
  ∧ set_logger "train.log" Sample.w0 = (Ok tt, w1)
  ∧ set_logger "logs/other.log" w1 = (Ok tt, w1)
  ∧ handlers (root w1)
    = [Handler (FileSink ["home"; "gan"; "train.log"])
         (Some "%(asctime)s:%(levelname)s: %(message)s");
       Handler ConsoleSink (Some "%(message)s")]
  ∧ length (List.filter is_file_handler (handlers (root w1))) = 1
  ∧ length (List.filter is_console_handler (handlers (root w1))) = 1.
Proof.
  intros w1.
  assert (set_logger "train.log" Sample.w0 = (Ok tt, w1)) as H
    by (vm_compute; reflexivity).
  split; [reflexivity|]. split; [exact H|].
  destruct (set_logger_twice "train.log" "logs/other.log" Sample.w0 w1 H)
    as [H2 Hfresh].
  split; [exact H2|]. exact (Hfresh eq_refl).
Defined.

(** Two calls that both return and leave no file handler, and a second call
    that adds handlers.  On a root logger that already has a console handler
    [set_logger] adds nothing: after two calls there is that one console
    handler, no file handler, and [train.log] was never created.  And when the
    first call fails, because [logs] does not exist, it is the second call
    that installs the two handlers. *)
Lemma set_logger_twice_counterexample :
  let w := Sample.with_basic_config Sample.w0 in
  let w1 := Sample.after (set_logger "train.log") w in
  let w2 := Sample.after (set_logger "logs/train.log") Sample.w0 in
  let w3 := Sample.after (set_logger "train.log") w2 in
  (set_logger "train.log" w = (Ok tt, w1)
   ∧ set_logger "other.log" w1 = (Ok tt, w1)
   ∧ handlers (root w1) = [Handler ConsoleSink None]
   ∧ length (List.filter is_file_handler (handlers (root w1))) = 0
   ∧ nodes w1 !! ["home"; "gan"; "train.log"] = None)
  ∧ (set_logger "logs/train.log" Sample.w0 = (Raise FileNotFoundError, w2)
     ∧ handlers (root w2) = []
     ∧ set_logger "train.log" w2 = (Ok tt, w3)
     ∧ length (handlers (root w3)) = 2).
Proof. intros w w1 w2 w3. repeat split; vm_compute; reflexivity. Qed.

(** ** [plot_loss_history] *)

(** Looking through the changes that leave an entry alone. *)
Ltac frame_node :=
  repeat first [ rewrite node_at_gcf | rewrite node_at_stdout
               | rewrite node_at_insert_ne by done ].

Section plot_facts.
Implicit Types (w : world) (p : string) (k : list string).

Lemma write_file_at p c w k :
  p ≠ "" → resolve w p = k →
  node_at w (removelast k) = Some Dir → node_at w k ≠ Some Dir →
  write_file p c w = (Ok tt, with_nodes <[k := File c]> w).
Proof.
  intros Hne <- Hpar Hk. rewrite write_file_run.
  destruct (String.eqb_spec p ""); [done|].
  assert (entry w (resolve w p) = Ok (node_at w (resolve w p))) as ->
    by by apply entry_Ok.
  by destruct (node_at w (resolve w p)) as [[|?]|].
Qed.

Lemma removelast_app2 k (x y : string) :
  removelast (k ++ [x; y]) = (k ++ [x])%list.
Proof.
  change (k ++ [x; y])%list with (k ++ ([x] ++ [y]))%list.
  by rewrite app_assoc, removelast_last.
Qed.

Lemma truthy_true {A} (l : list A) : l ≠ [] → truthy l = true.
Proof. by destruct l. Qed.

Lemma DataFrame_run (a b : string) (xs ys : list float64) w :
  length xs = length ys →
  DataFrame [(a, xs); (b, ys)] w = (Ok [(a, xs); (b, ys)], w).
Proof. intros H. unfold DataFrame. simpl. by rewrite H, Nat.eqb_refl. Qed.

Lemma resolve_png w output_dir name :
  output_dir ≠ "" → Path.plain name = true →
  resolve w (output_dir +:+ String Path.sep ("figures" +:+ String Path.sep name))
  = (resolve w output_dir ++ ["figures"; name])%list.
Proof. intros. by apply abspath_append2. Qed.

Lemma append_nonempty a b : a ≠ "" → a +:+ b ≠ "".
Proof. destruct a; [done|]. by rewrite append_cons. Qed.

End plot_facts.

(** C6. On a pair, or a triple, of histories whose generator and
    discriminator histories are non-empty and of one length, with an output
    directory that has a [figures] subdirectory, and where no directory
    stands in the place of a file to be written, [plot_loss_history] returns
    after writing the plot to [<output_dir>/figures/history.png] and the
    MATLAB file to [<output_dir>/history.mat], directly in the output
    directory; for a triple it also writes
    [<output_dir>/figures/Eff_history.png], and the MATLAB file holds the
    third history too.  Nothing else in the file system changes. *)
Theorem plot_loss_history_artifacts (gen dis eff : list float64)
    (output_dir : string) (w : world) :
  let ko := resolve w output_dir in
  let png := (ko ++ ["figures"; "history.png"])%list in
  let eff_png := (ko ++ ["figures"; "Eff_history.png"])%list in
  let mat := (ko ++ ["history.mat"])%list in
  let curves :=
    Figure [RollingMean 10 "generator" gen; RollingMean 10 "disciminator" dis]
      "" "" in
  let eff_curve := Figure [Line eff] "Avarage Efficiency" "iteration/200" in
  output_dir ≠ "" →
  gen ≠ [] → dis ≠ [] → length gen = length dis →
  node_at w ko = Some Dir →
  node_at w (ko ++ ["figures"])%list = Some Dir →
  node_at w png ≠ Some Dir →
  node_at w mat ≠ Some Dir →
  resolve w (output_dir +:+ "/figures/history.png") = png
  ∧ resolve w (Path.join output_dir "history.mat") = mat
  ∧ (∃ w',
       plot_loss_history [gen; dis] output_dir w = (Ok tt, w')
       ∧ nodes w'
         = <[mat := File (Mat [("gen_loss_history", gen);
                               ("dis_loss_history", dis)])]>
             (<[png := File (Png curves)]> (nodes w)))
  ∧ (node_at w eff_png ≠ Some Dir →
     ∃ w',
       plot_loss_history [gen; dis; eff] output_dir w = (Ok tt, w')
       ∧ nodes w'
         = <[mat := File (Mat [("gen_loss_history", gen);
                               ("dis_loss_history", dis);
                               ("Eff_history", eff)])]>
             (<[eff_png := File (Png eff_curve)]>
                (<[png := File (Png curves)]> (nodes w)))
       ∧ stdout w' = (stdout w ++ [Floats eff])%list).
Proof.
  intros ko png eff_png mat curves eff_curve Hne Hg Hd Hlen Hko Hfig Hpng Hmat.
  assert (resolve w (output_dir +:+ "/figures/history.png") = png) as Rpng
    by (by apply (resolve_png w output_dir "history.png")).
  assert (resolve w (output_dir +:+ "/figures/Eff_history.png") = eff_png) as Reff
    by (by apply (resolve_png w output_dir "Eff_history.png")).
  assert (resolve w (Path.join output_dir "history.mat") = mat) as Rmat
    by (by apply abspath_join).
  assert (removelast png = (ko ++ ["figures"])%list) as Ppng
    by apply removelast_app2.
  assert (removelast eff_png = (ko ++ ["figures"])%list) as Peff
    by apply removelast_app2.
  assert (removelast mat = ko) as Pmat by apply removelast_last.
  assert (png ≠ ko ∧ png ≠ mat ∧ png ≠ (ko ++ ["figures"])%list
          ∧ eff_png ≠ ko ∧ eff_png ≠ mat ∧ eff_png ≠ (ko ++ ["figures"])%list
          ∧ png ≠ eff_png) as (N1 & N2 & N3 & N4 & N5 & N6 & N7).
  { unfold png, eff_png, mat.
    repeat split; intros E;
      try (apply (f_equal length) in E; rewrite ?length_app in E; simpl in E; lia);
      by apply app_inv_head in E. }
  split; [done|]. split; [done|]. split.
  - unfold plot_loss_history. simpl.
    rewrite (truthy_true gen Hg), (truthy_true dis Hd). simpl.
    unfold rolling_mean_plot, plt_savefig, io_savemat. unfold_M.
    rewrite <- Hlen, Nat.eqb_refl. simpl.
    rewrite (write_file_at _ _ _ png);
      [|by apply append_nonempty|exact Rpng
       |rewrite Ppng; frame_node; exact Hfig|frame_node; exact Hpng].
    rewrite (write_file_at _ _ _ mat);
      [|by apply join_nonempty|exact Rmat
       |rewrite Pmat; frame_node; exact Hko
       |frame_node; exact Hmat].
    by eexists.
  - intros Heff. unfold plot_loss_history. simpl.
    rewrite (truthy_true gen Hg), (truthy_true dis Hd). simpl.
    unfold rolling_mean_plot, plt_savefig, io_savemat, plt_figure, print,
      plt_plot, plt_ylabel, plt_xlabel. unfold_M.
    rewrite <- Hlen, Nat.eqb_refl. simpl.
    rewrite (write_file_at _ _ _ png);
      [|by apply append_nonempty|exact Rpng
       |rewrite Ppng; frame_node; exact Hfig|frame_node; exact Hpng].
    simpl.
    rewrite (write_file_at _ _ _ eff_png);
      [|by apply append_nonempty|exact Reff
       |rewrite Peff; frame_node; exact Hfig
       |frame_node; exact Heff].
    rewrite (write_file_at _ _ _ mat);
      [|by apply join_nonempty|exact Rmat
       |rewrite Pmat; frame_node; exact Hko
       |frame_node; exact Hmat].
    by eexists.
Qed.

Lemma plot_loss_history_artifacts_witness :
  let w := Sample.with_out Sample.w0 in
  node_at w ["home"; "gan"; "out"; "figures"] = Some Dir
  ∧ ∃ w',
      plot_loss_history [[1; 2]%Z; [3; 4]%Z] "out" w = (Ok tt, w')
      ∧ nodes w'
        = <[["home"; "gan"; "out"; "history.mat"]
            := File (Mat [("gen_loss_history", [1; 2]%Z);
                          ("dis_loss_history", [3; 4]%Z)])]>
            (<[["home"; "gan"; "out"; "figures"; "history.png"]
               := File (Png (Figure [RollingMean 10 "generator" [1; 2]%Z;
                                     RollingMean 10 "disciminator" [3; 4]%Z]
                               "" ""))]> (nodes w)).
Proof.
  intros w.
  assert (node_at w ["home"; "gan"; "out"; "figures"] = Some Dir) as Hfig
    by (vm_compute; reflexivity).
  split; [exact Hfig|].
  refine (proj1 (proj2 (proj2
    (plot_loss_history_artifacts [1; 2]%Z [3; 4]%Z [] "out" w
       _ _ _ _ _ Hfig _ _)))); try done; vm_compute; congruence.
Defined.

(** With [out/figures] in place, the plot lands in [out/figures] and the
    MATLAB file directly in [out]: nothing is written to
    [out/figures/history.mat]. *)
Lemma plot_loss_history_counterexample :
  let w := Sample.with_out Sample.w0 in
  let w' := Sample.after (plot_loss_history [[1; 2]%Z; [3; 4]%Z] "out") w in
  plot_loss_history [[1; 2]%Z; [3; 4]%Z] "out" w = (Ok tt, w')
  ∧ nodes w' !! ["home"; "gan"; "out"; "figures"; "history.mat"] = None
  ∧ nodes w' !! ["home"; "gan"; "out"; "history.mat"]
    = Some (File (Mat [("gen_loss_history", [1; 2]%Z);
                       ("dis_loss_history", [3; 4]%Z)]))
  ∧ nodes w' !! ["home"; "gan"; "out"; "figures"; "history.png"]
    = Some (File (Png (Figure [RollingMean 10 "generator" [1; 2]%Z;
                               RollingMean 10 "disciminator" [3; 4]%Z]
                         "" ""))).
Proof. intros w w'. repeat split; vm_compute; reflexivity. Qed.

(** * Further properties of [utils.py] *)

(** ** [save_checkpoint]: success, failure and frame *)

Section save_checkpoint_more.
Implicit Types (w : world) (state : gmap string pyobj) (checkpoint : string).

(** The two shapes of the world a successful save leaves. *)
Lemma save_checkpoint_shape state checkpoint w w1 :
  save_checkpoint state checkpoint w = (Ok tt, w1) →
  let kd := resolve w checkpoint in
  let kf := (kd ++ ["model.pth.tar"])%list in
  (∃ f, w1 = with_nodes <[kf := File (Pickle state)]> (with_stdout f w))
  ∨ (∃ f, w1 = with_nodes <[kf := File (Pickle state)]>
                  (with_nodes <[kd := Dir]> (with_stdout f w))).
Proof.
  intros H kd kf. rewrite save_checkpoint_run in H.
  destruct (path_exists w checkpoint).
  - rewrite write_file_run in H. destruct (String.eqb _ ""); [done|].
    rewrite resolve_filepath in H. change (resolve _ checkpoint) with kd in H.
    fold kf in H. left. eexists.
    destruct (entry _ kf) as [[[|?]|]|]; by simplify_eq.
  - rewrite os_mkdir_run in H. destruct (String.eqb checkpoint ""); [done|].
    change (resolve _ checkpoint) with kd in H.
    destruct (entry _ kd) as [[?|]|]; [done| |done].
    rewrite write_file_run in H. destruct (String.eqb _ ""); [done|].
    rewrite resolve_filepath in H. change (resolve _ checkpoint) with kd in H.
    fold kf in H. right. eexists.
    destruct (entry _ kf) as [[[|?]|]|]; by simplify_eq.
Qed.

End save_checkpoint_more.



(** X2. [save_checkpoint] makes one directory, not a chain of them: when the
    parent of the checkpoint directory does not exist and no regular file
    stands on the way to it (or the path is empty), the call raises
    [FileNotFoundError] after its message, and the file system is as it was.
    The path is one without a [..] component, so that the names the kernel
    looks up are the components of the path. *)
Theorem save_checkpoint_missing_parent (state : gmap string pyobj)
    (checkpoint : string) (w : world) :
  let kd := resolve w checkpoint in
  ".." ∉ Path.split checkpoint →
  checkpoint = ""
  ∨ (node_at w (removelast kd) = None
     ∧ ∀ k' c, k' `prefix_of` kd → node_at w k' ≠ Some (File c)) →
  ∃ w1,
    save_checkpoint state checkpoint w = (Raise FileNotFoundError, w1)
    ∧ nodes w1 = nodes w
    ∧ stdout w1
      = (stdout w ++
         [Text ("Checkpoint Directory does not exist! Making directory "
                +:+ checkpoint)])%list.
Proof.
  intros kd _ H. rewrite save_checkpoint_run.
  assert (path_exists w checkpoint = false) as ->.
  { apply not_true_is_false. intros (Hne & Hpar & _)%path_exists_true.
    destruct H as [?|[H _]]; [done|]. fold kd in Hpar. by rewrite H in Hpar. }
  rewrite os_mkdir_run. destruct (String.eqb_spec checkpoint "") as [->|Hne].
  { by eexists. }
  destruct H as [?|[Hpar Hway]]; [done|].
  rewrite entry_stdout.
  change (resolve (with_stdout ?f w) checkpoint) with kd.
  rewrite (entry_missing w kd Hpar Hway). by eexists.
Qed.

Lemma save_checkpoint_missing_parent_witness :
  let w := Sample.with_objects Sample.w0 in
  node_at w (removelast (resolve w "runs/today/ckpt")) = None
  ∧ ∃ w1,
      save_checkpoint (Sample.state4 1) "runs/today/ckpt" w
      = (Raise FileNotFoundError, w1)
      ∧ nodes w1 = nodes w.
Proof.
  intros w.
  assert (node_at w (removelast (resolve w "runs/today/ckpt")) = None) as H
    by (vm_compute; reflexivity).
  assert (∀ k' c, k' `prefix_of` resolve w "runs/today/ckpt" →
                  node_at w k' ≠ Some (File c)) as Hway.
  { intros k' c [r Hr]. vm_compute in Hr.
    repeat (destruct k' as [|? k'];
            [by vm_compute|simpl in Hr; try discriminate Hr;
                           injection Hr as <- Hr]). }
  assert (".." ∉ Path.split "runs/today/ckpt") as Hdots.
  { vm_compute. intros Hin.
    repeat (inversion Hin as [|? ? ? Hin']; subst; clear Hin;
            rename Hin' into Hin). }
  split; [exact H|].
  destruct (save_checkpoint_missing_parent (Sample.state4 1) "runs/today/ckpt" w
              Hdots (or_intror (conj H Hway))) as (w1 & Hrun & Hn & _).
  exists w1. exact (conj Hrun Hn).
Defined.

(** X3. Frame of a successful [save_checkpoint]: besides printing its
    message, it changes the checkpoint directory and the artifact in it and
    nothing else: every other entry of the file system, the objects in
    memory, the root logger and the current figure are as before. *)
Theorem save_checkpoint_frame (state : gmap string pyobj) (checkpoint : string)
    (w w1 : world) :
  save_checkpoint state checkpoint w = (Ok tt, w1) →
  heap w1 = heap w ∧ root w1 = root w ∧ gcf w1 = gcf w ∧ cwd w1 = cwd w
  ∧ ∀ k, k ≠ resolve w checkpoint →
         k ≠ resolve w (Path.join checkpoint "model.pth.tar") →
         node_at w1 k = node_at w k.
Proof.
  intros H. rewrite resolve_filepath.
  destruct (save_checkpoint_shape _ _ _ _ H) as [[f ->]|[f ->]].
  - repeat split; try done. intros k _ Hk.
    by rewrite node_at_insert_ne, node_at_stdout.
  - repeat split; try done. intros k Hd Hk.
    by rewrite !node_at_insert_ne, node_at_stdout.
Qed.

Lemma save_checkpoint_frame_witness :
  let w := Sample.with_config (Sample.with_objects Sample.w0) in
  let w1 := Sample.after (save_checkpoint (Sample.state4 1) "ckpt") w in
  save_checkpoint (Sample.state4 1) "ckpt" w = (Ok tt, w1)
  ∧ heap w1 = heap w
  ∧ node_at w1 ["home"; "gan"; "params.json"]
    = Some (File (JsonDoc Sample.config)).
Proof.
  intros w w1.
  assert (save_checkpoint (Sample.state4 1) "ckpt" w = (Ok tt, w1)) as H
    by (vm_compute; reflexivity).
  split; [exact H|].
  destruct (save_checkpoint_frame _ _ _ _ H) as (Hh & _ & _ & _ & Hk).
  split; [exact Hh|].
  rewrite (Hk ["home"; "gan"; "params.json"]); [vm_compute; reflexivity|..];
    vm_compute; congruence.
Defined.

(** ** [load_checkpoint]: frame and partial restores *)

Section load_checkpoint_more.
Implicit Types (w : world) (d : gmap string pyobj) (p : string).
Implicit Types (g dn og od : loc).

(** Either the path holds an artifact, or the call stops before it touches
    anything. *)
Lemma load_checkpoint_artifact_or_raise w p g dn optimizer :
  (∃ d, holds_artifact w p d)
  ∨ (∃ e, load_checkpoint p (g, dn) optimizer w = (Raise e, w)).
Proof.
  destruct (path_exists w p) eqn:Ex.
  2: { right. eexists. by apply load_checkpoint_missing. }
  apply path_exists_true in Ex as (Hne & Hpar & [x Hx]).
  assert (entry w (resolve w p) = Ok (Some x)) as He by by apply entry_Ok.
  destruct x as [|[| d | | | |]].
  all: try (right; unfold load_checkpoint, os_path_exists, raise_str, torch_load,
              read_file; unfold_M;
            assert (path_exists w p = true) as ->
              by (apply path_exists_true; rewrite Hx; eauto);
            simpl; destruct (String.eqb_spec p ""); [done|];
            rewrite He; simpl; by eexists).
  left. by exists d.
Qed.

End load_checkpoint_more.

(** X4. Frame of [load_checkpoint], whatever its outcome: it writes nothing
    to the file system, prints nothing, leaves the root logger and the
    current figure alone, and in memory changes at most the generator, the
    discriminator and, when a pair is given, the two optimizers. *)
Theorem load_checkpoint_frame (w : world) (p : string) (g dn : loc)
    (optimizer : option (loc * loc)) :
  let w' := (load_checkpoint p (g, dn) optimizer w).2 in
  cwd w' = cwd w ∧ nodes w' = nodes w ∧ stdout w' = stdout w
  ∧ root w' = root w ∧ gcf w' = gcf w
  ∧ ∀ l, l = g ∨ l = dn
         ∨ (∃ og od, optimizer = Some (og, od) ∧ (l = og ∨ l = od))
         ∨ heap w' !! l = heap w !! l.
Proof.
  intros w'. unfold w'. clear w'.
  destruct (load_checkpoint_artifact_or_raise w p g dn optimizer)
    as [[d H]|[e ->]].
  2: { repeat split; try done. intros l. by do 3 right. }
  rewrite (load_checkpoint_run _ _ _ _ _ _ H).
  assert (∀ l, l = g ∨ l = dn
               ∨ (∃ og od, optimizer = Some (og, od) ∧ (l = og ∨ l = od))
               ∨ (match optimizer with
                  | Some (og, od) => l ≠ og ∧ l ≠ od
                  | None => True
                  end ∧ l ≠ g ∧ l ≠ dn)) as Hcase.
  { intros l. destruct (decide (l = g)); [by left|].
    destruct (decide (l = dn)); [by right; left|].
    destruct optimizer as [[og od]|]; [|by do 3 right].
    destruct (decide (l = og)); [right; right; left; by exists og, od; eauto|].
    destruct (decide (l = od)); [right; right; left; by exists og, od; eauto|].
    by do 3 right. }
  repeat (match goal with
          | |- context [@lookup string pyobj (gmap string pyobj) _ ?k ?m] =>
              destruct (m !! k) eqn:?
          end; simpl; [|repeat split; try done]).
  all: try (destruct optimizer as [[og od]|]; simpl).
  all: repeat (match goal with
               | |- context [@lookup string pyobj (gmap string pyobj) _ ?k ?m] =>
              destruct (m !! k) eqn:?
               end; simpl).
  all: repeat split; try done.
  all: intros l; destruct (Hcase l) as [?|[?|[?|Hl]]]; eauto.
  all: destruct Hl as (Ho & ? & ?); do 3 right.
  all: try destruct Ho.
  all: by rewrite ?lookup_insert_ne.
Qed.

(** X5. A failure before the first [load_state_dict]: when the artifact
    lacks the iteration count, one of the four histories or the generator
    state, the call raises [KeyError] for a field the artifact lacks and the
    world is exactly as it was: no network, no optimizer was touched. *)
Theorem load_checkpoint_early_failure (w : world) (p : string)
    (d : gmap string pyobj) (g dn : loc) (optimizer : option (loc * loc)) :
  holds_artifact w p d →
  d !! "iters" = None ∨ d !! "gen_loss_history" = None
  ∨ d !! "dis_loss_history" = None ∨ d !! "dis_loss_real_history" = None
  ∨ d !! "dis_loss_fake_history" = None ∨ d !! "gen_state_dict" = None →
  ∃ key,
    load_checkpoint p (g, dn) optimizer w = (Raise (KeyError key), w)
    ∧ d !! key = None.
Proof.
  intros H Hno. rewrite (load_checkpoint_run _ _ _ _ _ _ H).
  repeat (match goal with
          | |- context [d !! ?k] => destruct (d !! k) eqn:?
          | |- ∃ key, (Raise (KeyError ?k), w) = _ ∧ _ => by exists k
          end; simpl).
  all: naive_solver.
Qed.

Lemma load_checkpoint_early_failure_witness :
  let d := delete "iters" (Sample.state6 7) in
  let w := Sample.saved d in
  holds_artifact w "ckpt/model.pth.tar" d
  ∧ d !! "iters" = None
  ∧ ∃ key,
      load_checkpoint "ckpt/model.pth.tar" (Sample.G, Sample.D)
        (Some (Sample.OG, Sample.OD)) w
      = (Raise (KeyError key), w)
      ∧ d !! key = None.
Proof.
  intros d w.
  assert (holds_artifact w "ckpt/model.pth.tar" d) as H
    by (split; [done | vm_compute; reflexivity]).
  assert (d !! "iters" = None) as Hi by (vm_compute; reflexivity).
  exact (conj H (conj Hi
    (load_checkpoint_early_failure w _ d Sample.G Sample.D
       (Some (Sample.OG, Sample.OD)) H (or_introl Hi)))).
Defined.

(** X6. A failure between the two network loads: when the artifact has the
    iteration count, the four histories and the generator state but no
    discriminator state, the call raises [KeyError] after the generator was
    loaded: the generator holds the stored state, every other object is
    untouched. *)
Theorem load_checkpoint_generator_only (w : world) (p : string)
    (d : gmap string pyobj) (g dn : loc) (optimizer : option (loc * loc))
    (iters gh dh rh fh gsd : pyobj) :
  holds_artifact w p d →
  d !! "iters" = Some iters →
  d !! "gen_loss_history" = Some gh →
  d !! "dis_loss_history" = Some dh →
  d !! "dis_loss_real_history" = Some rh →
  d !! "dis_loss_fake_history" = Some fh →
  d !! "gen_state_dict" = Some gsd →
  d !! "dis_state_dict" = None →
  ∃ w',
    load_checkpoint p (g, dn) optimizer w
    = (Raise (KeyError "dis_state_dict"), w')
    ∧ heap w' = <[g := gsd]> (heap w)
    ∧ heap w' !! g = Some gsd
    ∧ ∀ l, l ≠ g → heap w' !! l = heap w !! l.
Proof.
  intros H Hi Hgh Hdh Hrh Hfh Hg Hd.
  rewrite (load_checkpoint_run _ _ _ _ _ _ H).
  rewrite Hi, Hgh, Hdh, Hrh, Hfh, Hg, Hd. simpl.
  eexists. split; [done|]. simpl. split; [done|]. split.
  - by rewrite lookup_insert_eq.
  - intros l Hl. by rewrite lookup_insert_ne.
Qed.

Lemma load_checkpoint_generator_only_witness :
  let d := delete "dis_state_dict" (Sample.state4 7) in
  let w := Sample.saved d in
  holds_artifact w "ckpt/model.pth.tar" d
  ∧ ∃ w',
      load_checkpoint "ckpt/model.pth.tar" (Sample.G, Sample.D) None w
      = (Raise (KeyError "dis_state_dict"), w')
      ∧ heap w' = <[Sample.G := Sample.weights 10]> (heap w)
      ∧ heap w' !! Sample.G = Some (Sample.weights 10)
      ∧ ∀ l, l ≠ Sample.G → heap w' !! l = heap w !! l.
Proof.
  intros d w.
  assert (holds_artifact w "ckpt/model.pth.tar" d) as H
    by (split; [done | vm_compute; reflexivity]).
  split; [exact H|].
  refine (load_checkpoint_generator_only w _ d Sample.G Sample.D None
            _ _ _ _ _ _ H _ _ _ _ _ _ _); vm_compute; reflexivity.
Defined.

(** X7. A failure between the two optimizer loads: when the artifact has
    every field but the discriminator-optimizer state, a call with an
    optimizer pair raises [KeyError] after both networks and the generator's
    optimizer were loaded; the discriminator's optimizer, when it is an object
    of its own, keeps its old state. *)
Theorem load_checkpoint_optimizer_half (w : world) (p : string)
    (d : gmap string pyobj) (g dn og od : loc)
    (iters gh dh rh fh gsd dsd a : pyobj) :
  holds_artifact w p d →
  d !! "iters" = Some iters →
  d !! "gen_loss_history" = Some gh →
  d !! "dis_loss_history" = Some dh →
  d !! "dis_loss_real_history" = Some rh →
  d !! "dis_loss_fake_history" = Some fh →
  d !! "gen_state_dict" = Some gsd →
  d !! "dis_state_dict" = Some dsd →
  d !! "optim_G_state_dict" = Some a →
  d !! "optim_D_state_dict" = None →
  ∃ w',
    load_checkpoint p (g, dn) (Some (og, od)) w
    = (Raise (KeyError "optim_D_state_dict"), w')
    ∧ heap w' = <[og := a]> (<[dn := dsd]> (<[g := gsd]> (heap w)))
    ∧ heap w' !! og = Some a
    ∧ (od ≠ og → od ≠ dn → od ≠ g → heap w' !! od = heap w !! od).
Proof.
  intros H Hi Hgh Hdh Hrh Hfh Hg Hd Ha Hb.
  rewrite (load_checkpoint_run _ _ _ _ _ _ H).
  rewrite Hi, Hgh, Hdh, Hrh, Hfh, Hg, Hd, Ha, Hb. simpl.
  eexists. split; [done|]. simpl. split; [done|]. split.
  - by rewrite lookup_insert_eq.
  - intros. by rewrite !lookup_insert_ne.
Qed.

Lemma load_checkpoint_optimizer_half_witness :
  let d := delete "optim_D_state_dict" (Sample.state6 7) in
  let w := Sample.saved d in
  holds_artifact w "ckpt/model.pth.tar" d
  ∧ ∃ w',
      load_checkpoint "ckpt/model.pth.tar" (Sample.G, Sample.D)
        (Some (Sample.OG, Sample.OD)) w
      = (Raise (KeyError "optim_D_state_dict"), w')
      ∧ heap w'
        = <[Sample.OG := Sample.weights 30]>
            (<[Sample.D := Sample.weights 20]>
               (<[Sample.G := Sample.weights 10]> (heap w)))
      ∧ heap w' !! Sample.OG = Some (Sample.weights 30)
      ∧ (Sample.OD ≠ Sample.OG → Sample.OD ≠ Sample.D → Sample.OD ≠ Sample.G →
         heap w' !! Sample.OD = heap w !! Sample.OD).
Proof.
  intros d w.
  assert (holds_artifact w "ckpt/model.pth.tar" d) as H
    by (split; [done | vm_compute; reflexivity]).
  split; [exact H|].
  refine (load_checkpoint_optimizer_half w _ d Sample.G Sample.D Sample.OG
            Sample.OD _ _ _ _ _ _ _ _ H _ _ _ _ _ _ _ _ _);
    vm_compute; reflexivity.
Defined.

(** ** [row_csv2dict]: wide rows, short rows *)

Section csv_more.
Implicit Types (rows : list (list string)).
Implicit Types (acc : gmap (string * string) string).

(** The loop on rows of at least three fields: it returns, and only the
    first three fields of a row matter. *)
Lemma for_row_wide rows :
  Forall (λ row : list string, (3 ≤ length row)%nat) rows →
  ∀ acc w, ∃ m,
    for_row rows acc w = (Ok m, w)
    ∧ (∀ a b, Forall (other_key a b) rows → m !! (a, b) = acc !! (a, b))
    ∧ (∀ before a b c more after,
         rows = (before ++ (a :: b :: c :: more) :: after)%list →
         Forall (other_key a b) after → m !! (a, b) = Some c).
Proof.
  induction 1 as [|row rows Hrow _ IH]; intros acc w.
  { exists acc. split; [done|]. split; [done|].
    intros before ?????. by destruct before. }
  destruct row as [|a0 [|b0 [|c0 more0]]]; simpl in Hrow; try lia.
  destruct (IH (<[(a0, b0) := c0]> acc) w) as (m & Hrun & Hframe & Hlast).
  exists m. split; [|split].
  - simpl. unfold list_getitem. simpl. unfold_M. exact Hrun.
  - intros a b [Hk Hrest]%Forall_cons. rewrite Hframe by done.
    apply lookup_insert_ne. intros [= -> ->]. by apply Hk.
  - intros before a b c more after E Hafter. destruct before as [|r before].
    + simplify_eq/=. rewrite Hframe by done. apply lookup_insert_eq.
    + simplify_eq/=. by eapply Hlast.
Qed.

(** The loop stops at the first row of fewer than three fields. *)
Lemma for_row_short before row after :
  Forall (λ row : list string, (3 ≤ length row)%nat) before →
  (length row < 3)%nat →
  ∀ acc w, for_row (before ++ row :: after) acc w = (Raise IndexError, w).
Proof.
  intros Hbefore Hrow. induction Hbefore as [|r before Hr _ IH]; intros acc w.
  - simpl. unfold list_getitem.
    assert (row !! 2 = None) as -> by (apply lookup_ge_None; lia).
    done.
  - destruct r as [|a0 [|b0 [|c0 more0]]]; simpl in Hr; try lia.
    simpl. unfold list_getitem. simpl. unfold_M. apply IH.
Qed.

End csv_more.

(** X8. [row_csv2dict] reads the first three fields of a row and ignores
    the rest: on a file whose rows have at least three fields it returns a
    mapping that sends each key pair [(a, b)] to the third field of the last
    row beginning with [a], [b], whatever follows the third field, and has no
    other key. *)
Theorem row_csv2dict_wide_rows (csv_file : string) (w : world)
    (rows : list (list string)) :
  csv_file ≠ "" →
  entry w (resolve w csv_file) = Ok (Some (File (CsvText rows))) →
  Forall (λ row : list string, (3 ≤ length row)%nat) rows →
  ∃ m,
    row_csv2dict csv_file w = (Ok m, w)
    ∧ (∀ before a b c more after,
         rows = (before ++ (a :: b :: c :: more) :: after)%list →
         Forall (other_key a b) after → m !! (a, b) = Some c)
    ∧ (∀ a b, Forall (other_key a b) rows → m !! (a, b) = None).
Proof.
  intros Hne He Hrows.
  destruct (for_row_wide rows Hrows ∅ w) as (m & Hrun & Hframe & Hlast).
  exists m. split; [|split; [done|]].
  - unfold row_csv2dict, read_file, csv_reader.
    destruct (String.eqb_spec csv_file ""); [done|]. unfold_M.
    by rewrite He.
  - intros a b Hab. by rewrite Hframe.
Qed.

Lemma row_csv2dict_wide_rows_witness :
  let w := Sample.with_wide_table Sample.w0 in
  entry w (resolve w "wide.csv") = Ok (Some (File (CsvText Sample.wide_table)))
  ∧ Forall (λ row : list string, (3 ≤ length row)%nat) Sample.wide_table
  ∧ ∃ m,
      row_csv2dict "wide.csv" w = (Ok m, w)
      ∧ m !! ("a", "b") = Some "second"
      ∧ m !! ("c", "d") = Some "other".
Proof.
  intros w.
  assert (entry w (resolve w "wide.csv")
          = Ok (Some (File (CsvText Sample.wide_table)))) as He
    by (vm_compute; reflexivity).
  assert (Forall (λ row : list string, (3 ≤ length row)%nat) Sample.wide_table) as Hrows
    by (repeat constructor; simpl; lia).
  split; [exact He|]. split; [exact Hrows|].
  destruct (row_csv2dict_wide_rows "wide.csv" w Sample.wide_table
              ltac:(done) He Hrows) as (m & Hrun & Hlast & _).
  exists m. split; [exact Hrun|]. split.
  - apply (Hlast [["a"; "b"; "first"; "x"]; ["c"; "d"; "other"]]
             "a" "b" "second" ["y"; "z"] []); [done | constructor].
  - apply (Hlast [["a"; "b"; "first"; "x"]] "c" "d" "other" []
             [["a"; "b"; "second"; "y"; "z"]]); [done|].
    constructor; [|constructor]. intros [[=] _].
Defined.

(** X9. A row of fewer than three fields (an empty line of the file is one)
    makes [row_csv2dict] raise [IndexError]: the rows before it are read,
    nothing is returned, and the world is as it was. *)
Theorem row_csv2dict_short_row (csv_file : string) (w : world)
    (before after : list (list string)) (row : list string) :
  csv_file ≠ "" →
  entry w (resolve w csv_file)
  = Ok (Some (File (CsvText (before ++ row :: after)))) →
  Forall (λ row : list string, (3 ≤ length row)%nat) before →
  (length row < 3)%nat →
  row_csv2dict csv_file w = (Raise IndexError, w).
Proof.
  intros Hne He Hbefore Hrow.
  unfold row_csv2dict, read_file, csv_reader.
  destruct (String.eqb_spec csv_file ""); [done|]. unfold_M.
  rewrite He. by apply for_row_short.
Qed.

Lemma row_csv2dict_short_row_witness :
  let w := Sample.with_short_table Sample.w0 in
  entry w (resolve w "short.csv") = Ok (Some (File (CsvText Sample.short_table)))
  ∧ row_csv2dict "short.csv" w = (Raise IndexError, w).
Proof.
  intros w.
  assert (entry w (resolve w "short.csv")
          = Ok (Some (File (CsvText Sample.short_table)))) as He
    by (vm_compute; reflexivity).
  split; [exact He|].
  apply (row_csv2dict_short_row "short.csv" w [["a"; "b"; "first"]]
           [["e"; "f"; "g"]] ["c"; "d"]); [done | exact He | | simpl; lia].
  repeat constructor.
Defined.

(** ** [plot_loss_history]: the cases that write nothing *)

(** X10. With an empty generator history or an empty discriminator history,
    [plot_loss_history] returns at once, for a pair as for a triple: no file
    is written, no figure is made, nothing is printed. *)
Theorem plot_loss_history_empty_history (gen dis eff : list float64)
    (output_dir : string) (w : world) :
  gen = [] ∨ dis = [] →
  plot_loss_history [gen; dis] output_dir w = (Ok tt, w)
  ∧ plot_loss_history [gen; dis; eff] output_dir w = (Ok tt, w).
Proof.
  intros H. unfold plot_loss_history. simpl.
  assert (truthy gen && truthy dis = false) as ->; [|done].
  destruct H as [-> | ->]; [done|]. by destruct gen.
Qed.

Lemma plot_loss_history_empty_history_witness :
  plot_loss_history [[1; 2]%Z; []] "out" (Sample.with_out Sample.w0)
  = (Ok tt, Sample.with_out Sample.w0)
  ∧ plot_loss_history [[1; 2]%Z; []; [5]%Z] "out" (Sample.with_out Sample.w0)
    = (Ok tt, Sample.with_out Sample.w0).
Proof.
  exact (plot_loss_history_empty_history [1; 2]%Z [] [5]%Z "out"
           (Sample.with_out Sample.w0) (or_intror eq_refl)).
Defined.

(** X11. A [loss_history] that is neither a pair nor a triple cannot be
    unpacked: the call raises [ValueError] and the world is as it was. *)
Theorem plot_loss_history_wrong_length (loss_history : list (list float64))
    (output_dir : string) (w : world) :
  length loss_history ≠ 2 → length loss_history ≠ 3 →
  ∃ msg, plot_loss_history loss_history output_dir w = (Raise (ValueError msg), w).
Proof.
  intros H2 H3. unfold plot_loss_history.
  destruct loss_history as [|a [|b [|c [|e rest]]]]; simpl in *;
    try done; by eexists.
Qed.

Lemma plot_loss_history_wrong_length_witness :
  ∃ msg,
    plot_loss_history [[1; 2]%Z] "out" (Sample.with_out Sample.w0)
    = (Raise (ValueError msg), Sample.with_out Sample.w0).
Proof.
  apply (plot_loss_history_wrong_length [[1; 2]%Z] "out"
           (Sample.with_out Sample.w0)); simpl; lia.
Defined.

(** X12. [plot_loss_history] does not make the [figures] directory: when
    [output_dir] is a directory that has no entry [figures], the first
    [savefig] raises [FileNotFoundError], for a pair as for a triple, and the
    file system is as it was; in particular [history.mat] is not written
    either.  The path is one without a [..] component, so that the names the
    kernel looks up are the components of the path. *)
Theorem plot_loss_history_no_figures_directory (gen dis eff : list float64)
    (output_dir : string) (w : world) :
  output_dir ≠ "" → ".." ∉ Path.split output_dir →
  gen ≠ [] → dis ≠ [] → length gen = length dis →
  node_at w (resolve w output_dir) = Some Dir →
  node_at w (resolve w output_dir ++ ["figures"])%list = None →
  (∃ w', plot_loss_history [gen; dis] output_dir w
         = (Raise FileNotFoundError, w')
         ∧ nodes w' = nodes w ∧ stdout w' = stdout w)
  ∧ (∃ w', plot_loss_history [gen; dis; eff] output_dir w
           = (Raise FileNotFoundError, w')
           ∧ nodes w' = nodes w ∧ stdout w' = stdout w).
Proof.
  intros Hne _ Hg Hd Hlen Hout Hfig.
  assert (∀ w0 fig, nodes w0 = nodes w → cwd w0 = cwd w →
            write_file (output_dir +:+ "/figures/history.png")
              (Png fig) w0 = (Raise FileNotFoundError, w0)) as Hw.
  { intros w0 fig Hn Hc. rewrite write_file_run.
    destruct (String.eqb_spec (output_dir +:+ "/figures/history.png") "") as [E|_].
    { by apply append_nonempty in E. }
    assert (resolve w0 (output_dir +:+ "/figures/history.png")
            = (resolve w output_dir ++ ["figures"; "history.png"])%list) as ->.
    { unfold resolve. rewrite Hc.
      by apply (resolve_png w output_dir "history.png"). }
    rewrite (entry_ext w0 w) by done.
    by rewrite (entry_missing_in_dir w _ _ _ Hout Hfig). }
  split.
  - unfold plot_loss_history. simpl.
    rewrite (truthy_true gen Hg), (truthy_true dis Hd). simpl.
    unfold rolling_mean_plot, plt_savefig, io_savemat. unfold_M.
    rewrite <- Hlen, Nat.eqb_refl. simpl.
    rewrite Hw by done. by eexists.
  - unfold plot_loss_history. simpl.
    rewrite (truthy_true gen Hg), (truthy_true dis Hd). simpl.
    unfold rolling_mean_plot, plt_savefig, io_savemat, plt_figure, print,
      plt_plot, plt_ylabel, plt_xlabel. unfold_M.
    rewrite <- Hlen, Nat.eqb_refl. simpl.
    rewrite Hw by done. by eexists.
Qed.

Lemma plot_loss_history_no_figures_directory_witness :
  let w := Sample.w0 in
  node_at w (resolve w ".") = Some Dir
  ∧ node_at w (resolve w "." ++ ["figures"])%list = None
  ∧ ∃ w', plot_loss_history [[1; 2]%Z; [3; 4]%Z] "." w
          = (Raise FileNotFoundError, w')
          ∧ nodes w' = nodes w ∧ stdout w' = stdout w.
Proof.
  intros w.
  assert (node_at w (resolve w ".") = Some Dir) as Hout
    by (vm_compute; reflexivity).
  assert (node_at w (resolve w "." ++ ["figures"])%list = None) as H
    by (vm_compute; reflexivity).
  assert (".." ∉ Path.split ".") as Hdots.
  { vm_compute. intros Hin.
    repeat (inversion Hin as [|? ? ? Hin']; subst; clear Hin;
            rename Hin' into Hin). }
  split; [exact Hout|]. split; [exact H|].
  exact (proj1 (plot_loss_history_no_figures_directory [1; 2]%Z [3; 4]%Z []
                  "." w ltac:(done) Hdots ltac:(done) ltac:(done) eq_refl
                  Hout H)).
Defined.

(** ** [set_logger]: a configured root logger, an unopenable log file *)

(** X13. When the root logger already has a handler, [set_logger] sets the
    level to [INFO] and does nothing else: the handlers are as before, no file
    handler for [log_path] is added, and [log_path] is neither opened nor
    created. *)
Theorem set_logger_keeps_handlers (log_path : string) (w : world)
    (h : handler) (hs : list handler) :
  handlers (root w) = h :: hs →
  ∃ w',
    set_logger log_path w = (Ok tt, w')
    ∧ handlers (root w') = h :: hs
    ∧ level (root w') = INFO
    ∧ nodes w' = nodes w.
Proof.
  intros H. rewrite (set_logger_configured log_path w h hs H).
  eexists. split; [done|]. by simpl.
Qed.

Lemma set_logger_keeps_handlers_witness :
  let w := Sample.with_basic_config Sample.w0 in
  handlers (root w) = [Handler ConsoleSink None]
  ∧ ∃ w',
      set_logger "train.log" w = (Ok tt, w')
      ∧ handlers (root w') = [Handler ConsoleSink None]
      ∧ level (root w') = INFO
      ∧ nodes w' = nodes w.
Proof.
  intros w. split; [reflexivity|].
  exact (set_logger_keeps_handlers "train.log" w (Handler ConsoleSink None) []
           eq_refl).
Defined.

(** X14. When the root logger has no handler and the log file cannot be
    opened, [set_logger] raises the error of the failed [open] with the level
    already [INFO], no handler added and the file system as it was.  The
    error is [FileNotFoundError] when the directory of the log file does not
    exist and no regular file stands on the way to it, and
    [IsADirectoryError] when [log_path] names a directory, as the empty path
    does: the handler opens its absolute path, the working directory. *)
Theorem set_logger_unopenable (log_path : string) (w : world) :
  let k := resolve w log_path in
  handlers (root w) = [] →
  (node_at w (removelast k) = None →
   (∀ k' c, k' `prefix_of` k → node_at w k' ≠ Some (File c)) →
   ∃ w',
     set_logger log_path w = (Raise FileNotFoundError, w')
     ∧ handlers (root w') = []
     ∧ level (root w') = INFO
     ∧ nodes w' = nodes w)
  ∧ (entry w k = Ok (Some Dir) →
     ∃ w',
       set_logger log_path w = (Raise IsADirectoryError, w')
       ∧ handlers (root w') = []
       ∧ level (root w') = INFO
       ∧ nodes w' = nodes w).
Proof.
  intros k H.
  assert (∀ e, open_append k (with_root (λ lg, Logger INFO (handlers lg)) w)
               = (Raise e, with_root (λ lg, Logger INFO (handlers lg)) w) →
            ∃ w', set_logger log_path w = (Raise e, w')
                  ∧ handlers (root w') = []
                  ∧ level (root w') = INFO
                  ∧ nodes w' = nodes w) as Hopen.
  { intros e He. unfold set_logger, setLevel, FileHandler. unfold_M. simpl.
    rewrite H.
    change (resolve (with_root ?f w) log_path) with k. rewrite He.
    eexists. split; [done|]. by simpl. }
  split.
  - intros Hpar Hway. apply Hopen. rewrite open_append_run, entry_root.
    by rewrite (entry_missing w k Hpar Hway).
  - intros Hdir. apply Hopen. rewrite open_append_run, entry_root.
    by rewrite Hdir.
Qed.

Lemma set_logger_unopenable_witness :
  let w := Sample.w0 in
  node_at w (removelast (resolve w "logs/train.log")) = None
  ∧ (∃ w',
       set_logger "logs/train.log" w = (Raise FileNotFoundError, w')
       ∧ handlers (root w') = []
       ∧ level (root w') = INFO
       ∧ nodes w' = nodes w)
  ∧ entry w (resolve w "") = Ok (Some Dir)
  ∧ (∃ w',
       set_logger "" w = (Raise IsADirectoryError, w')
       ∧ handlers (root w') = []
       ∧ level (root w') = INFO
       ∧ nodes w' = nodes w).
Proof.
  intros w.
  assert (node_at w (removelast (resolve w "logs/train.log")) = None) as H
    by (vm_compute; reflexivity).
  assert (∀ k' c, k' `prefix_of` resolve w "logs/train.log" →
                  node_at w k' ≠ Some (File c)) as Hway.
  { intros k' c [r Hr]. vm_compute in Hr.
    repeat (destruct k' as [|? k'];
            [by vm_compute|simpl in Hr; try discriminate Hr;
                           injection Hr as <- Hr]). }
  assert (entry w (resolve w "") = Ok (Some Dir)) as Hdir
    by (vm_compute; reflexivity).
  split; [exact H|].
  split; [exact (proj1 (set_logger_unopenable "logs/train.log" w eq_refl) H Hway)|].
  split; [exact Hdir|].
  exact (proj2 (set_logger_unopenable "" w eq_refl) Hdir).
Defined.

(** ** [Params]: construction, repeated updates, saving *)

Section params_more.
Import Params.
Implicit Types (members : list (string * json)) (d self : gmap string json).
Implicit Types (w : world) (p : string).

(** In an object without repeated names every member is bound. *)
Lemma object_pairs_NoDup members d key v :
  NoDup members.*1 → (key, v) ∈ members →
  object_pairs members d !! key = Some v.
Proof.
  intros Hnd [l1 [l2 ->]]%list_elem_of_split.
  apply object_pairs_last. rewrite fmap_app in Hnd. simpl in Hnd.
  apply NoDup_app in Hnd as (_ & _ & Hnd). by apply NoDup_cons in Hnd as [? _].
Qed.

(** Reading back the members of a dictionary gives the dictionary. *)
Lemma object_pairs_map_to_list d : object_pairs (map_to_list d) ∅ = d.
Proof.
  apply map_eq. intros key. destruct (d !! key) as [v|] eqn:E.
  - apply object_pairs_NoDup; [apply NoDup_fst_map_to_list|].
    by apply elem_of_map_to_list.
  - rewrite object_pairs_absent; [done|].
    intros [[k v] [-> Hin]]%list_elem_of_fmap.
    apply elem_of_map_to_list in Hin. simpl in *. congruence.
Qed.

Lemma open_write_run p w :
  open_write p w
  = if String.eqb p "" then (Raise FileNotFoundError, w)
    else match entry w (resolve w p) with
         | Ok (Some Dir) => (Raise IsADirectoryError, w)
         | Ok _ => (Ok (resolve w p), with_nodes <[resolve w p := File Empty]> w)
         | Raise e => (Raise e, w)
         end.
Proof.
  unfold open_write. destruct (String.eqb p ""); [done|]. unfold_M.
  by destruct (entry w (resolve w p)) as [[[|?]|]|].
Qed.

(** Opening a file for writing succeeds exactly on a non-empty path whose
    parent is a directory and which is not a directory itself. *)
Lemma open_write_Ok p w k w1 :
  open_write p w = (Ok k, w1) →
  p ≠ "" ∧ k = resolve w p ∧ k ≠ []
  ∧ node_at w (removelast k) = Some Dir
  ∧ w1 = with_nodes <[k := File Empty]> w.
Proof.
  rewrite open_write_run. destruct (String.eqb_spec p ""); [done|].
  destruct (entry w (resolve w p)) as [o|] eqn:E; [|done].
  apply entry_Ok in E as [Hpar Ho]. intros H.
  assert (o ≠ Some Dir ∧ k = resolve w p
          ∧ w1 = with_nodes <[resolve w p := File Empty]> w) as (Hd & -> & ->)
    by (destruct o as [[|?]|]; by simplify_eq).
  repeat split; try done. intros E. rewrite E in Ho. simpl in Ho. congruence.
Qed.

(** After a write through an open file the path holds what was written. *)
Lemma entry_written p w k c :
  k = resolve w p → k ≠ [] → node_at w (removelast k) = Some Dir →
  let w1 := with_nodes <[k := File c]> (with_nodes <[k := File Empty]> w) in
  entry w1 (resolve w1 p) = Ok (Some (File c)).
Proof.
  intros -> Hk Hpar w1. change (resolve w1 p) with (resolve w p).
  apply entry_Ok. unfold w1. split.
  - rewrite !node_at_insert_ne; [done|by apply not_eq_sym, removelast_ne..].
  - by rewrite node_at_insert_eq.
Qed.

End params_more.

(** X15. [Params(json_path)]: on a JSON file whose top-level value is an
    object, the new instance has exactly the names of the object as
    attributes, each with the value of its last occurrence in the file. *)
Theorem Params_init_attributes (json_path : string) (w : world)
    (members : list (string * json)) :
  json_path ≠ "" →
  entry w (resolve w json_path) = Ok (Some (File (JsonDoc members))) →
  ∃ self,
    Params.init json_path w = (Ok self, w)
    ∧ (∀ key, is_Some (self !! key) ↔ key ∈ members.*1)
    ∧ (∀ before key v after,
         members = (before ++ (key, v) :: after)%list → key ∉ after.*1 →
         self !! key = Some v).
Proof.
  intros Hne He. exists (Params.object_pairs members ∅). split; [|split].
  - unfold Params.init. rewrite (update_run ∅ json_path w members Hne He).
    by rewrite (right_id_L ∅ (∪)).
  - intros key. split.
    + intros [v Hv]. destruct (decide (key ∈ members.*1)) as [|Hout]; [done|].
      by rewrite (object_pairs_absent _ _ _ Hout) in Hv.
    + intros Hin. destruct (object_pairs_present members ∅ key Hin) as (v & _ & ->).
      by eexists.
  - intros before key v after -> Hk. by apply object_pairs_last.
Qed.

Lemma Params_init_attributes_witness :
  let w := Sample.with_config Sample.w0 in
  entry w (resolve w "params.json") = Ok (Some (File (JsonDoc Sample.config)))
  ∧ ∃ self,
      Params.init "params.json" w = (Ok self, w)
      ∧ self !! "learning_rate" = Some (JNum 2)
      ∧ ¬ is_Some (self !! "beta1").
Proof.
  intros w.
  assert (entry w (resolve w "params.json")
          = Ok (Some (File (JsonDoc Sample.config)))) as He
    by (vm_compute; reflexivity).
  split; [exact He|].
  destruct (Params_init_attributes "params.json" w Sample.config ltac:(done) He)
    as (self & Hrun & Hdom & Hlast).
  exists self. split; [exact Hrun|]. split.
  - apply (Hlast [("learning_rate", JNum 1); ("batch_size", JNum 64)]
             "learning_rate" (JNum 2) []); [done|]. apply not_elem_of_nil.
  - intros H%Hdom.
    by repeat (apply elem_of_cons in H as [H|H]; [done|]); apply elem_of_nil in H.
Defined.

(** X16. Updating twice from the same file is updating once: after
    [update], a second [update] from the same, unchanged file returns the
    same attributes. *)
Theorem Params_update_idempotent (self : gmap string json)
    (json_path : string) (w : world) (members : list (string * json)) :
  json_path ≠ "" →
  entry w (resolve w json_path) = Ok (Some (File (JsonDoc members))) →
  ∃ self1,
    Params.update self json_path w = (Ok self1, w)
    ∧ Params.update self1 json_path w = (Ok self1, w).
Proof.
  intros Hne He. eexists. split; [by apply update_run|].
  rewrite (update_run _ json_path w members Hne He).
  by rewrite (assoc_L (∪)), (idemp_L (∪)).
Qed.

Lemma Params_update_idempotent_witness :
  let w := Sample.with_config Sample.w0 in
  entry w (resolve w "params.json") = Ok (Some (File (JsonDoc Sample.config)))
  ∧ ∃ self1,
      Params.update Sample.params0 "params.json" w = (Ok self1, w)
      ∧ Params.update self1 "params.json" w = (Ok self1, w).
Proof.
  intros w.
  assert (entry w (resolve w "params.json")
          = Ok (Some (File (JsonDoc Sample.config)))) as He
    by (vm_compute; reflexivity).
  split; [exact He|].
  exact (Params_update_idempotent Sample.params0 "params.json" w Sample.config
           ltac:(done) He).
Defined.

(** X17. [save] then load: once [save(json_path)] has returned, a new
    [Params(json_path)] has exactly the saved attributes, and [update] on any
    instance gives the saved attributes over that instance's own; what the
    file held before is gone. *)
Theorem Params_save_round_trip (self : gmap string json) (json_path : string)
    (w w1 : world) :
  Params.save self json_path w = (Ok tt, w1) →
  Params.init json_path w1 = (Ok self, w1)
  ∧ ∀ other, Params.update other json_path w1 = (Ok (self ∪ other), w1).
Proof.
  unfold Params.save, Params.json_dump, write_open. unfold_M.
  destruct (open_write json_path w) as [[k|e] w0] eqn:Ho; [|done].
  apply open_write_Ok in Ho as (Hne & Hk & Hk0 & Hpar & ->). intros [= <-].
  pose proof (entry_written json_path w k (JsonDoc (map_to_list self))
                Hk Hk0 Hpar) as He. simpl in He.
  set (w1 := with_nodes <[k := File (JsonDoc (map_to_list self))]>
               (with_nodes <[k := File Empty]> w)) in *.
  assert (∀ other, Params.update other json_path w1 = (Ok (self ∪ other), w1))
    as Hu.
  { intros other. rewrite (update_run _ json_path _ _ Hne He).
    by rewrite object_pairs_map_to_list. }
  split; [|exact Hu].
  unfold Params.init. rewrite Hu. by rewrite (right_id_L ∅ (∪)).
Qed.

Lemma Params_save_round_trip_witness :
  let w := Sample.with_config Sample.w0 in
  let w1 := Sample.after (Params.save Sample.params0 "params.json") w in
  Params.save Sample.params0 "params.json" w = (Ok tt, w1)
  ∧ Params.init "params.json" w1 = (Ok Sample.params0, w1).
Proof.
  intros w w1.
  assert (Params.save Sample.params0 "params.json" w = (Ok tt, w1)) as H
    by (vm_compute; reflexivity).
  split; [exact H|].
  exact (proj1 (Params_save_round_trip Sample.params0 "params.json" w w1 H)).
Defined.

(** ** [save_dict_to_json] *)

Section save_dict_more.
Variable float_of_int : Z → result float64.
Implicit Types (items : list (string * pyobj)) (w : world).

(** The comprehension raises as soon as one value is refused. *)
Lemma float_items_raise items w key v e0 :
  (key, v) ∈ items → float float_of_int v = Raise e0 →
  ∃ e, float_items float_of_int items w = (Raise e, w)
       ∧ ∃ key' v', (key', v') ∈ items ∧ float float_of_int v' = Raise e.
Proof.
  induction items as [|[k0 v0] items IH]; intros Hin Hv.
  { by apply elem_of_nil in Hin. }
  simpl. destruct (float float_of_int v0) as [x|e] eqn:E0.
  - apply elem_of_cons in Hin as [[= -> ->]|Hin]; [congruence|].
    destruct (IH Hin Hv) as (e & Hrun & k' & v' & Hin' & He).
    exists e. unfold_M. rewrite Hrun. split; [done|].
    exists k', v'. split; [by right | done].
  - exists e. split; [done|]. exists k0, v0. split; [by left | done].
Qed.

(** When every value is accepted, the comprehension returns the items with
    their values converted, in the same order. *)
Lemma float_items_ok items w :
  (∀ key v, (key, v) ∈ items → ∃ x, float float_of_int v = Ok x) →
  ∃ out, float_items float_of_int items w = (Ok out, w)
         ∧ out.*1 = items.*1
         ∧ ∀ key v x, (key, v) ∈ items → float float_of_int v = Ok x →
                      (key, JFloat x) ∈ out.
Proof.
  induction items as [|[k0 v0] items IH]; intros Hall.
  { exists []. split; [done|]. split; [done|]. intros ??? Hin.
    by apply elem_of_nil in Hin. }
  destruct (Hall k0 v0) as [x0 Hx0]; [by left|].
  destruct IH as (out & Hrun & Hkeys & Hout).
  { intros key v Hin. apply (Hall key v). by right. }
  exists ((k0, JFloat x0) :: out). simpl. rewrite Hx0. unfold_M. rewrite Hrun.
  split; [done|]. split; [simpl; f_equal; exact Hkeys|].
  intros key v x [[= -> ->]|Hin]%elem_of_cons Hv.
  - assert (x = x0) as -> by congruence. by left.
  - right. by eapply Hout.
Qed.

End save_dict_more.

(** X18. [save_dict_to_json] opens the file before it converts the values:
    when one value of the dictionary is refused by [float], the call raises
    the error of a refused value and leaves [json_path] as an empty file,
    whatever it held before. *)
Theorem save_dict_to_json_refused_value (float_of_int : Z → result float64)
    (d : gmap string pyobj) (json_path : string) (w : world)
    (key : string) (v : pyobj) (e0 : exn) :
  json_path ≠ "" →
  node_at w (removelast (resolve w json_path)) = Some Dir →
  node_at w (resolve w json_path) ≠ Some Dir →
  d !! key = Some v →
  float float_of_int v = Raise e0 →
  ∃ e w1,
    save_dict_to_json float_of_int d json_path w = (Raise e, w1)
    ∧ nodes w1 = <[resolve w json_path := File Empty]> (nodes w)
    ∧ ∃ key' v', d !! key' = Some v' ∧ float float_of_int v' = Raise e.
Proof.
  intros Hne Hpar Hk Hd Hv. unfold save_dict_to_json. unfold_M.
  rewrite open_write_run. destruct (String.eqb_spec json_path ""); [done|].
  assert (entry w (resolve w json_path) = Ok (node_at w (resolve w json_path)))
    as -> by by apply entry_Ok.
  apply elem_of_map_to_list in Hd.
  set (w0 := with_nodes <[resolve w json_path := File Empty]> w).
  destruct (float_items_raise float_of_int (map_to_list d) w0 key v e0 Hd Hv)
    as (e & Hrun & k' & v' & Hin & He).
  exists e, w0.
  assert (∀ o, o ≠ Some Dir →
            (let (r, w') :=
               match o with
               | Some Dir => (Raise IsADirectoryError, w)
               | _ => (Ok (resolve w json_path), w0)
               end in
             match r with
             | Ok a =>
                 let (r0, w'0) := float_items float_of_int (map_to_list d) w' in
                 match r0 with
                 | Ok a0 => (Ok (), with_nodes <[a := File (JsonDoc a0)]> w'0)
                 | Raise e1 => (Raise e1, w'0)
                 end
             | Raise e1 => (Raise e1, w')
             end) = (Raise e, w0)) as Hgo.
  { intros o Ho. destruct o as [[|?]|]; [done|..]; by rewrite Hrun. }
  split; [by apply Hgo|]. split; [done|].
  exists k', v'. split; [by apply elem_of_map_to_list | done].
Qed.

Lemma save_dict_to_json_refused_value_witness :
  let w := Sample.with_config Sample.w0 in
  node_at w (resolve w "params.json") = Some (File (JsonDoc Sample.config))
  ∧ Sample.bad_metrics !! "accuracy" = Some PyNone
  ∧ ∃ e w1,
      save_dict_to_json Sample.float_of_int Sample.bad_metrics "params.json" w
      = (Raise e, w1)
      ∧ nodes w1 = <[resolve w "params.json" := File Empty]> (nodes w)
      ∧ ∃ key' v', Sample.bad_metrics !! key' = Some v'
                   ∧ float Sample.float_of_int v' = Raise e.
Proof.
  intros w.
  assert (node_at w (resolve w "params.json")
          = Some (File (JsonDoc Sample.config))) as Hf by (vm_compute; reflexivity).
  assert (Sample.bad_metrics !! "accuracy" = Some PyNone) as Hd
    by (vm_compute; reflexivity).
  split; [exact Hf|]. split; [exact Hd|].
  refine (save_dict_to_json_refused_value Sample.float_of_int Sample.bad_metrics
            "params.json" w "accuracy" PyNone _ _ _ _ Hd eq_refl).
  - done.
  - vm_compute; reflexivity.
  - rewrite Hf. congruence.
Defined.

(** X19. When [float] accepts every value, [save_dict_to_json] returns and
    the file reads back, through [Params(json_path)], as the dictionary with
    each value replaced by its float: the same keys, no others. *)
Theorem save_dict_to_json_read_back (float_of_int : Z → result float64)
    (d : gmap string pyobj) (json_path : string) (w : world) :
  json_path ≠ "" →
  node_at w (removelast (resolve w json_path)) = Some Dir →
  node_at w (resolve w json_path) ≠ Some Dir →
  (∀ key v, d !! key = Some v → ∃ x, float float_of_int v = Ok x) →
  ∃ w1 self,
    save_dict_to_json float_of_int d json_path w = (Ok tt, w1)
    ∧ Params.init json_path w1 = (Ok self, w1)
    ∧ (∀ key v x, d !! key = Some v → float float_of_int v = Ok x →
                  self !! key = Some (JFloat x))
    ∧ (∀ key, d !! key = None → self !! key = None).
Proof.
  intros Hne Hpar Hk Hall.
  set (k := resolve w json_path) in *.
  assert (k ≠ []) as Hk0 by (intros E; by rewrite E in Hk).
  set (w0 := with_nodes <[k := File Empty]> w).
  destruct (float_items_ok float_of_int (map_to_list d) w0) as (out & Hrun & Hkeys & Hout).
  { intros key v Hin%elem_of_map_to_list. by eapply Hall. }
  set (w1 := with_nodes <[k := File (JsonDoc out)]> w0).
  assert (save_dict_to_json float_of_int d json_path w = (Ok tt, w1)) as Hsave.
  { unfold save_dict_to_json, write_open. unfold_M. rewrite open_write_run.
    destruct (String.eqb_spec json_path ""); [done|]. fold k.
    assert (entry w k = Ok (node_at w k)) as -> by by apply entry_Ok.
    destruct (node_at w k) as [[|?]|]; [done|..]; fold w0; by rewrite Hrun. }
  pose proof (entry_written json_path w k (JsonDoc out) eq_refl Hk0 Hpar) as He.
  simpl in He. fold w0 in He. fold w1 in He.
  exists w1, (Params.object_pairs out ∅). split; [done|]. split; [|split].
  - unfold Params.init. rewrite (update_run ∅ json_path w1 out Hne He).
    by rewrite (right_id_L ∅ (∪)).
  - intros key v x Hd Hv. apply object_pairs_NoDup.
    + rewrite Hkeys. apply NoDup_fst_map_to_list.
    + eapply Hout; [by apply elem_of_map_to_list | done].
  - intros key Hd. rewrite object_pairs_absent; [done|]. rewrite Hkeys.
    intros [[k' v'] [-> Hin]]%list_elem_of_fmap.
    apply elem_of_map_to_list in Hin. simpl in *. congruence.
Qed.

Lemma save_dict_to_json_read_back_witness :
  let w := Sample.w0 in
  node_at w (removelast (resolve w "metrics.json")) = Some Dir
  ∧ ∃ w1 self,
      save_dict_to_json Sample.float_of_int Sample.metrics "metrics.json" w
      = (Ok tt, w1)
      ∧ Params.init "metrics.json" w1 = (Ok self, w1)
      ∧ self !! "loss" = Some (JFloat 4607182418800017408%Z)
      ∧ self !! "accuracy" = Some (JFloat 4607182418800017408%Z).
Proof.
  intros w.
  assert (node_at w (removelast (resolve w "metrics.json")) = Some Dir) as Hpar
    by (vm_compute; reflexivity).
  split; [exact Hpar|].
  destruct (save_dict_to_json_read_back Sample.float_of_int Sample.metrics
              "metrics.json" w ltac:(done) Hpar)
    as (w1 & self & Hsave & Hinit & Hval & _).
  - vm_compute. congruence.
  - intros key v Hd. apply elem_of_map_to_list in Hd.
    vm_compute in Hd.
    repeat (apply elem_of_cons in Hd as [[= -> ->]|Hd];
            [eexists; vm_compute; reflexivity|]).
    by apply elem_of_nil in Hd.
  - exists w1, self. split; [exact Hsave|]. split; [exact Hinit|]. split.
    + apply (Hval "loss" (PyFloat 4607182418800017408%Z)); vm_compute; reflexivity.
    + apply (Hval "accuracy" (PyInt 1)); vm_compute; reflexivity.
Defined.
